(** * sslsub.py: the SSL Labs polling engine, embedded and verified

    A shallow embedding of [src/sslsub.py]: the helper [is_limit_error], the
    summary extraction [extract_summary], the polling engine
    [scan_until_ready], the reachability gate [has_https] and the per-host
    body of [main].

    Conventions of the embedding.
    - A decoded JSON payload is a value of [json]; a Python [dict] is an
      association list in insertion order ([dict]).  A Python [str] is a
      Rocq [string], one [ascii] per character.
    - A pure Python computation that can raise returns [py A]; what it
      raises ([KeyError], [TypeError], ...) is an instance of [Exception] and
      is represented by the text [str(e)].
    - The engine talks to the outside world (the [ssllabsscanner] wrapper, the
      clock, [time.sleep], sockets, output files).  These are threaded
      through a state-and-exception monad [M] reading a fixed [world]; every
      effect is logged as an [event].
    - Every handler of the source is [except Exception].  A raise in [M] is
      therefore of one of two kinds ([raised]): an instance of [Exception],
      which [try_] catches, or an exception outside that class
      ([SystemExit], [KeyboardInterrupt]), which [try_] lets through.
    - A [world] is an environment [env] of remote replies (returned values
      and raised [Exception]s) together with the calls that are cut short by
      an exception outside [Exception].  An [env] on its own stands for the
      world in which no call is interrupted ([quiet]).
    - [ssl.newScan] and [ssl.resultsFromCache] return a dict, the decoded
      JSON object, or raise; what the dict holds is arbitrary JSON.
    - Wall-clock time is counted in whole seconds: [time.sleep] advances it
      by the time slept and a remote call by the latency of its reply.
    - [while True] loops are bounded by fuel that counts loop-backs; running
      out of fuel is the outcome [Diverge].
    - The text of an exception raised inside [extract_summary] is never
      looked at by the source (a bare [except Exception]).
    - [print] calls only write to the console and are left out. *)

From Stdlib Require Import ZArith NArith List String Ascii Bool Lia PrimFloat.
From Stdlib Require Import DecimalString.
Import ListNotations.
Open Scope string_scope.
Set Warnings "-register-all".

(* ================================================================== *)
(** ** Python values *)

Inductive json : Type :=
| JNull
| JBool (b : bool)
| JInt (z : Z)
| JFloat (f : float)
| JStr (s : string)
| JList (l : list json)
| JObj (kv : list (string * json)).

Definition dict : Type := list (string * json).

(** The text of a raised exception, [str(e)]. *)
Definition exn : Type := string.

Inductive py (A : Type) : Type :=
| Ok (a : A)
| Exc (e : exn).
Arguments Ok {A} a.
Arguments Exc {A} e.

Definition py_bind {A B} (c : py A) (k : A -> py B) : py B :=
  match c with
  | Ok a => k a
  | Exc e => Exc e
  end.

Declare Scope py_scope.
Delimit Scope py_scope with py.
Notation "x <~ c ;; k" := (py_bind c (fun x => k))
  (at level 61, c at next level, right associativity) : py_scope.

Definition is_ok {A} (c : py A) : bool :=
  match c with Ok _ => true | Exc _ => false end.

(** [type(v).__name__] *)
Definition py_type_name (v : json) : string :=
  match v with
  | JNull => "NoneType"
  | JBool _ => "bool"
  | JInt _ => "int"
  | JFloat _ => "float"
  | JStr _ => "str"
  | JList _ => "list"
  | JObj _ => "dict"
  end.

(** [bool(v)] *)
Definition py_truthy (v : json) : bool :=
  match v with
  | JNull => false
  | JBool b => b
  | JInt z => negb (Z.eqb z 0)
  | JFloat f => negb (PrimFloat.eqb f PrimFloat.zero)
  | JStr s => negb (String.eqb s "")
  | JList l => match l with [] => false | _ => true end
  | JObj kv => match kv with [] => false | _ => true end
  end.

(** [a or b] *)
Definition py_or (a b : json) : json := if py_truthy a then a else b.

(** [d.get(k)] on a dict: [None] of [option] stands for a missing key. *)
Fixpoint dict_get (k : string) (d : dict) : option json :=
  match d with
  | [] => None
  | (k', v) :: d' => if String.eqb k k' then Some v else dict_get k d'
  end.

(** [d.get(k, default)] on a dict; [d.get(k)] is [dict_get_or k JNull d]. *)
Definition dict_get_or (k : string) (default : json) (d : dict) : json :=
  match dict_get k d with
  | Some v => v
  | None => default
  end.

(** [d[k] = v] on a dict: replace in place or append as the newest key. *)
Fixpoint dict_set (k : string) (v : json) (d : dict) : dict :=
  match d with
  | [] => [(k, v)]
  | (k', v') :: d' =>
      if String.eqb k k' then (k', v) :: d' else (k', v') :: dict_set k v d'
  end.

Definition attribute_error (v : json) (attr : string) : exn :=
  "'" ++ py_type_name v ++ "' object has no attribute '" ++ attr ++ "'".

(** [v.get(k, default)] on an arbitrary value: only a dict has [get]. *)
Definition py_get (v : json) (k : string) (default : json) : py json :=
  match v with
  | JObj kv => Ok (dict_get_or k default kv)
  | _ => Exc (attribute_error v "get")
  end.

Definition chars_of (s : string) : list json :=
  map (fun c => JStr (String c EmptyString)) (list_ascii_of_string s).

(** The items a [for x in v] loop visits. *)
Definition py_iter (v : json) : py (list json) :=
  match v with
  | JList l => Ok l
  | JStr s => Ok (chars_of s)
  | JObj kv => Ok (map (fun p => JStr (fst p)) kv)
  | _ => Exc ("'" ++ py_type_name v ++ "' object is not iterable")
  end.

Definition not_subscriptable (v : json) : exn :=
  "'" ++ py_type_name v ++ "' object is not subscriptable".

(** [v[0]] *)
Definition py_first (v : json) : py json :=
  match v with
  | JList (x :: _) => Ok x
  | JList [] => Exc "list index out of range"
  | JStr (String c _) => Ok (JStr (String c EmptyString))
  | JStr EmptyString => Exc "string index out of range"
  | JObj _ => Exc "0"
  | _ => Exc (not_subscriptable v)
  end.

(** [v[-1]] *)
Definition py_last (v : json) : py json :=
  match v with
  | JList [] => Exc "list index out of range"
  | JList l => Ok (last l JNull)
  | JStr EmptyString => Exc "string index out of range"
  | JStr s => Ok (last (chars_of s) JNull)
  | JObj _ => Exc "-1"
  | _ => Exc (not_subscriptable v)
  end.

(** [v[k]] for a string key [k]: a [KeyError] prints as the quoted key. *)
Definition py_item (v : json) (k : string) : py json :=
  match v with
  | JObj kv =>
      match dict_get k kv with
      | Some x => Ok x
      | None => Exc ("'" ++ k ++ "'")
      end
  | JStr _ => Exc "string indices must be integers, not 'str'"
  | JList _ => Exc "list indices must be integers or slices, not str"
  | _ => Exc (not_subscriptable v)
  end.

(** [isinstance(v, dict)] *)
Definition is_dict (v : json) : bool :=
  match v with JObj _ => true | _ => false end.

Fixpoint is_prefix (p s : string) : bool :=
  match p, s with
  | EmptyString, _ => true
  | String a p', String b s' => Ascii.eqb a b && is_prefix p' s'
  | String _ _, EmptyString => false
  end.

(** [needle in hay] on two strings *)
Fixpoint str_in (needle hay : string) : bool :=
  is_prefix needle hay ||
  match hay with
  | EmptyString => false
  | String _ hay' => str_in needle hay'
  end.

(** [sep.join(items)] on strings *)
Fixpoint join (sep : string) (items : list string) : string :=
  match items with
  | [] => ""
  | [x] => x
  | x :: rest => x ++ sep ++ join sep rest
  end.

(** [sep.join(items)] on values: every item has to be a string. *)
Fixpoint strings_of (items : list json) : py (list string) :=
  match items with
  | [] => Ok []
  | JStr s :: rest => (ss <~ strings_of rest ;; Ok (s :: ss))%py
  | v :: _ =>
      Exc ("sequence item: expected str instance, " ++ py_type_name v ++ " found")
  end.

Definition py_join (sep : string) (items : list json) : py string :=
  (ss <~ strings_of items ;; Ok (join sep ss))%py.

(* ================================================================== *)
(** ** The outside world and the monad of the engine *)

(** What one remote call does: how long it takes (seconds of wall-clock
    time) and what it returns or raises. *)
Record reply (A : Type) : Type := mkReply {
  latency : N;
  outcome : py A
}.
Arguments mkReply {A} latency outcome.
Arguments latency {A} r.
Arguments outcome {A} r.

(** The environment of a run: the answer of [ssl.resultsFromCache] for a
    host, the answer of the [k]-th [ssl.newScan] call of the run (counted
    from 0), and the answer of [socket.create_connection] for a host. *)
Record env : Type := mkEnv {
  cache_reply : string -> reply dict;
  scan_reply : nat -> reply dict;
  connect_reply : string -> reply unit
}.

(** A raise on its way up the call stack: of an exception that is an
    instance of [Exception], given by its text, or of one that is not
    ([SystemExit], [KeyboardInterrupt], [GeneratorExit]), which the
    [except Exception] handlers of the source do not catch. *)
Inductive raised : Type :=
| Exception (text : string)
| Interrupt (text : string).
Coercion Exception : string >-> raised.

(** The outside world of a run: the replies of the remote calls, and which
    calls are cut short by an exception that is not an instance of
    [Exception] (Ctrl-C, a [sys.exit] inside the wrapper): the [k]-th
    [ssl.newScan] call of the run, the cache lookup for a host, the
    connection attempt to a host. *)
Record world : Type := mkWorld {
  replies : env;
  scan_interrupt : nat -> option string;
  cache_interrupt : string -> option string;
  connect_interrupt : string -> option string
}.

(** An environment is a world in which no call is interrupted. *)
Definition quiet (w : env) : world :=
  mkWorld w (fun _ => None) (fun _ => None) (fun _ => None).
Coercion quiet : env >-> world.

Inductive sleep_kind : Type :=
| PollWait      (* [time.sleep(POLL_WAIT)] *)
| BackoffWait.  (* [time.sleep(wait_for)] *)

Inductive event : Type :=
| EvCache (host : string)
| EvNewScan (host : string)
| EvClock (t : N)
| EvSleep (k : sleep_kind) (secs : N)
| EvConnect (host : string) (port timeout : N)
| EvClose.

(** A piece of text written to the combined TXT report; [json.dumps] of a
    payload is kept as the payload. *)
Inductive txt_chunk : Type :=
| TxtLit (s : string)
| TxtJson (d : dict).

Record st : Type := mkSt {
  now : N;                       (* wall-clock time, in seconds *)
  calls : nat;                   (* [ssl.newScan] calls made so far *)
  trace : list event;            (* effects so far, oldest first *)
  csv : list (list json);        (* rows written to the CSV file *)
  txt : list txt_chunk;          (* writes to the TXT file *)
  files : list (string * dict)   (* per-host JSON files *)
}.

Inductive res (A : Type) : Type :=
| Ret (a : A)
| Raise (e : raised)
| Diverge.
Arguments Ret {A} a.
Arguments Raise {A} e.
Arguments Diverge {A}.

Definition M (A : Type) : Type := world -> st -> res A * st.

Definition ret {A} (a : A) : M A := fun _ s => (Ret a, s).

Definition bind {A B} (c : M A) (k : A -> M B) : M B :=
  fun w s =>
    match c w s with
    | (Ret a, s') => k a w s'
    | (Raise e, s') => (Raise e, s')
    | (Diverge, s') => (Diverge, s')
    end.

Definition diverge {A} : M A := fun _ s => (Diverge, s).

(** A pure Python computation inside the engine. *)
Definition lift {A} (c : py A) : M A :=
  fun _ s => match c with Ok a => (Ret a, s) | Exc e => (Raise e, s) end.

(** [try: c  except Exception as e: ...]: a raise that is not of an
    [Exception] passes through the handler. *)
Definition try_ {A} (c : M A) : M (py A) :=
  fun w s =>
    match c w s with
    | (Ret a, s') => (Ret (Ok a), s')
    | (Raise (Exception e), s') => (Ret (Exc e), s')
    | (Raise (Interrupt t), s') => (Raise (Interrupt t), s')
    | (Diverge, s') => (Diverge, s')
    end.

Definition log (e : event) (s : st) : st :=
  mkSt (now s) (calls s) (trace s ++ [e]) (csv s) (txt s) (files s).

Definition advance (d : N) (s : st) : st :=
  mkSt (now s + d) (calls s) (trace s) (csv s) (txt s) (files s).

Definition count_call (s : st) : st :=
  mkSt (now s) (S (calls s)) (trace s) (csv s) (txt s) (files s).

(** [time.time()] *)
Definition time_time : M N :=
  fun _ s => (Ret (now s), log (EvClock (now s)) s).

(** [time.sleep(secs)] *)
Definition sleep (k : sleep_kind) (secs : N) : M unit :=
  fun _ s => (Ret tt, advance secs (log (EvSleep k secs) s)).

(** The end of a remote call: interrupted, or as its reply says. *)
Definition answer {A} (stop : option string) (r : reply A) (s : st) : res A * st :=
  match stop with
  | Some t => (Raise (Interrupt t), advance (latency r) s)
  | None =>
      match outcome r with
      | Ok a => (Ret a, advance (latency r) s)
      | Exc e => (Raise e, advance (latency r) s)
      end
  end.

(** [ssl.resultsFromCache(host)] *)
Definition resultsFromCache (host : string) : M dict :=
  fun w s => answer (cache_interrupt w host) (cache_reply (replies w) host)
                    (log (EvCache host) s).

(** [ssl.newScan(host)] *)
Definition newScan (host : string) : M dict :=
  fun w s => answer (scan_interrupt w (calls s)) (scan_reply (replies w) (calls s))
                    (count_call (log (EvNewScan host) s)).

(** [socket.create_connection((host, port), timeout=timeout)] *)
Definition create_connection (host : string) (port timeout : N) : M unit :=
  fun w s => answer (connect_interrupt w host) (connect_reply (replies w) host)
                    (log (EvConnect host port timeout) s).

(** [sock.close()] *)
Definition sock_close : M unit := fun _ s => (Ret tt, log EvClose s).

Definition writerow (row : list json) : M unit :=
  fun _ s => (Ret tt, mkSt (now s) (calls s) (trace s) (csv s ++ [row]) (txt s) (files s)).

Definition txt_write (c : txt_chunk) : M unit :=
  fun _ s => (Ret tt, mkSt (now s) (calls s) (trace s) (csv s) (txt s ++ [c]) (files s)).

Definition json_dump (name : string) (d : dict) : M unit :=
  fun _ s => (Ret tt, mkSt (now s) (calls s) (trace s) (csv s) (txt s) (files s ++ [(name, d)])).

Declare Scope eng_scope.
Delimit Scope eng_scope with eng.
Notation "x <- c ;; k" := (bind c (fun x => k))
  (at level 61, c at next level, right associativity) : eng_scope.
Notation "c ;;; k" := (bind c (fun _ => k))
  (at level 61, right associativity) : eng_scope.

(* ================================================================== *)
(** ** Module constants *)

Definition POLL_WAIT : N := 30.
Definition BACKOFF_START : N := 60.
Definition BACKOFF_MAX : N := 600.
Definition MAX_POLL_MINUTES : N := 20.

(* ================================================================== *)
(** ** Pure helpers of sslsub.py *)

Section Runtime.

(** [str(v)] for a value that is not a string: Python's [repr], which the
    source never inspects beyond substring search and concatenation. *)
Variable py_repr : json -> string.

(** [s.strip()] *)
Variable py_strip : string -> string.

(** [pretty_ts(ms)]: a formatted UTC time stamp, or "N/A" on any failure.
    It catches every exception, so it is total. *)
Variable pretty_ts : json -> string.

(** [str(v)] *)
Definition py_str (v : json) : string :=
  match v with
  | JStr s => s
  | _ => py_repr v
  end.

(** The body of the [for e in errs] loop of [is_limit_error]. *)
Fixpoint limit_scan (errs : list json) : py bool :=
  match errs with
  | [] => Ok false
  | e :: rest =>
      (m <~ py_get e "message" (JStr "") ;;
       if str_in "Concurrent assessment limit" (py_str m)
       then Ok true
       else limit_scan rest)%py
  end.

Definition is_limit_error (resp : dict) : py bool :=
  (let errs := py_or (dict_get_or "errors" JNull resp) (JList []) in
   items <~ py_iter errs ;;
   limit_scan items)%py.

(** The [for p in protocols] loop of [extract_summary]. *)
Fixpoint proto_names (protocols : list json) : py (list string) :=
  match protocols with
  | [] => Ok []
  | p :: rest =>
      (n <~ py_get p "name" (JStr "") ;;
       let name := py_strip (py_str n) in
       v <~ py_get p "version" (JStr "") ;;
       let ver := py_strip (py_str v) in
       more <~ proto_names rest ;;
       Ok (py_strip (name ++ " " ++ ver) :: more))%py
  end.

(** [[s.get("name", "") for s in suites if s.get("name")]] *)
Fixpoint cipher_names (suites : list json) : py (list json) :=
  match suites with
  | [] => Ok []
  | s :: rest =>
      (c <~ py_get s "name" JNull ;;
       if py_truthy c
       then (n <~ py_get s "name" (JStr "") ;;
             more <~ cipher_names rest ;;
             Ok (n :: more))
       else cipher_names rest)%py
  end.

Definition nonempty_str (s : string) : bool := negb (String.eqb s "").

(** The [try] block of [extract_summary]. *)
Definition summary_row (data : dict) : py (list json) :=
  (let host := dict_get_or "host" (JStr "N/A") data in
   let status := dict_get_or "status" (JStr "N/A") data in
   endpoint <~ py_first (py_or (dict_get_or "endpoints" JNull data)
                               (JList [JObj []])) ;;
   ip <~ py_get endpoint "ipAddress" (JStr "N/A") ;;
   grade <~ py_get endpoint "grade" (JStr "N/A") ;;
   details <~ (if is_dict endpoint
               then py_get endpoint "details" (JObj [])
               else Ok (JObj [])) ;;
   cert <~ (if is_dict details
            then py_get details "cert" (JObj [])
            else Ok (JObj [])) ;;
   subject <~ py_get cert "subject" (JStr "N/A") ;;
   issuer <~ py_get cert "issuerLabel" (JStr "N/A") ;;
   notBefore <~ py_get cert "notBefore" (JInt 0) ;;
   notAfter <~ py_get cert "notAfter" (JInt 0) ;;
   let valid_from := pretty_ts notBefore in
   let valid_to := pretty_ts notAfter in
   key_size <~ py_get cert "keySize" (JStr "N/A") ;;
   key_algo <~ py_get cert "keyAlgorithm" (JStr "N/A") ;;
   protocols <~ (if is_dict details
                 then py_get details "protocols" (JList [])
                 else Ok (JList [])) ;;
   ps <~ py_iter protocols ;;
   proto_list <~ proto_names ps ;;
   let proto_str :=
     match proto_list with
     | [] => "N/A"
     | _ => join ", " (filter nonempty_str proto_list)
     end in
   suites <~ (if is_dict details
              then (su <~ py_get details "suites" JNull ;;
                    py_get (py_or su (JObj [])) "list" (JList []))
              else Ok (JList [])) ;;
   ss <~ py_iter suites ;;
   ciphers <~ cipher_names ss ;;
   cipher_str <~ match ciphers with
                 | [] => Ok "N/A"
                 | _ => py_join ", " ciphers
                 end ;;
   strongest <~ (if py_truthy suites
                 then (s0 <~ py_first suites ;; py_item s0 "name")
                 else Ok (JStr "N/A")) ;;
   weakest <~ (if py_truthy suites
               then (s1 <~ py_last suites ;; py_item s1 "name")
               else Ok (JStr "N/A")) ;;
   chain <~ (if is_dict details
             then py_get details "chain" (JObj [])
             else Ok (JObj [])) ;;
   chain_issues <~ py_get chain "issues" (JStr "N/A") ;;
   Ok [host; ip; grade; status; JStr proto_str;
       strongest; weakest; JStr cipher_str;
       subject; issuer; JStr valid_from; JStr valid_to;
       key_algo; key_size; chain_issues])%py.

(** [extract_summary]: the [try] block, with the [except Exception] row
    [[data.get("host", "N/A")] + ["N/A"] * 13] as the fallback. *)
Definition extract_summary (data : dict) : list json :=
  match summary_row data with
  | Ok row => row
  | Exc _ => [dict_get_or "host" (JStr "N/A") data] ++ repeat (JStr "N/A") 13
  end.

(* ================================================================== *)
(** ** The polling engine *)

(** [{"host": host, "status": "ERROR", "error": f"<what>: {e}"}] *)
Definition error_result (host what : string) (e : exn) : dict :=
  [("host", JStr host); ("status", JStr "ERROR");
   ("error", JStr (what ++ ": " ++ e))].

(** [data.get("status") == s] *)
Definition status_is (d : dict) (s : string) : bool :=
  match dict_get "status" d with
  | Some (JStr x) => String.eqb x s
  | _ => false
  end.

(** [status in ("READY", "ERROR")] *)
Definition is_terminal (d : dict) : bool :=
  status_is d "READY" || status_is d "ERROR".

(** [f"Stopped polling after {MAX_POLL_MINUTES} minutes."] *)
Definition timeout_warning : string := "Stopped polling after 20 minutes.".

(** [data.setdefault("warnings", [])] followed by
    [data["warnings"].append(...)]. *)
Definition mark_timeout (d : dict) : py dict :=
  match dict_get "warnings" d with
  | None => Ok (dict_set "warnings" (JList [JStr timeout_warning]) d)
  | Some (JList ws) =>
      Ok (dict_set "warnings" (JList (ws ++ [JStr timeout_warning])) d)
  | Some v => Exc (attribute_error v "append")
  end.

(** The local variables of one call of [scan_until_ready]. *)
Record session : Type := mkSession {
  data : dict;
  backoff : N;
  started_at : N;
  attempt : nat
}.

(** One pass through the body of the retry loop (lines 157-167); the
    boolean tells whether the pass ended in [break]. *)
Definition retry_iter (host : string) (ss : session) : M (session * bool) :=
  (let wait_for := N.min (backoff ss) BACKOFF_MAX in
   sleep BackoffWait wait_for ;;;
   let b := N.min (backoff ss * 2) BACKOFF_MAX in
   r <- try_ (newScan host) ;;
   match r with
   | Exc e =>
       ret (mkSession (error_result host "newScan retry failed" e) b
                      (started_at ss) (attempt ss), true)
   | Ok d =>
       lim <- lift (is_limit_error d) ;;
       ret (mkSession d b (started_at ss) (attempt ss), negb lim)
   end)%eng.

(** [while True:] of the submission phase. *)
Fixpoint retry_loop (fuel : nat) (host : string) (ss : session) : M session :=
  (x <- retry_iter host ss ;;
   if snd x then ret (fst x)
   else match fuel with
        | O => diverge
        | S fuel' => retry_loop fuel' host (fst x)
        end)%eng.

(** The [try] block of the poll loop (lines 187-195). *)
Definition repoll (host : string) (ss : session) : M (dict * N) :=
  (d <- newScan host ;;
   lim <- lift (is_limit_error d) ;;
   if lim
   then (let wait_for := N.min (backoff ss) BACKOFF_MAX in
         sleep BackoffWait wait_for ;;;
         let b := N.min (backoff ss * 2) BACKOFF_MAX in
         d' <- newScan host ;;
         ret (d', b))
   else ret (d, backoff ss))%eng.

(** One pass through the body of the poll loop (lines 171-199): either
    [return] (left) or the local variables for the next pass (right).
    [elapsed_min >= MAX_POLL_MINUTES] is compared in seconds. *)
Definition poll_iter (host : string) (ss : session) : M (dict + session) :=
  (if is_terminal (data ss) then ret (inl (data ss))
   else
     t <- time_time ;;
     if (MAX_POLL_MINUTES * 60 <=? t - started_at ss)%N
     then (d <- lift (mark_timeout (data ss)) ;; ret (inl d))
     else
       let n := S (attempt ss) in
       sleep PollWait POLL_WAIT ;;;
       r <- try_ (repoll host ss) ;;
       match r with
       | Exc e => ret (inl (error_result host "poll failed" e))
       | Ok (d, b) => ret (inr (mkSession d b (started_at ss) n))
       end)%eng.

(** [while True:] of the poll loop. *)
Fixpoint poll_loop (fuel : nat) (host : string) (ss : session) : M dict :=
  (x <- poll_iter host ss ;;
   match x with
   | inl d => ret d
   | inr ss' =>
       match fuel with
       | O => diverge
       | S fuel' => poll_loop fuel' host ss'
       end
   end)%eng.

(** [scan_until_ready] from line 143 to line 167, the submission phase:
    either [return] at line 152 (left) or the local variables with which
    the poll loop is entered (right). *)
Definition submit_phase (fuel : nat) (host : string) : M (dict + session) :=
  (let b := BACKOFF_START in
   t0 <- time_time ;;
   let n := O in
   r <- try_ (newScan host) ;;
   match r with
   | Exc e => ret (inl (error_result host "newScan failed" e))
   | Ok d =>
       let ss := mkSession d b t0 n in
       lim <- lift (is_limit_error d) ;;
       ss' <- (if lim then retry_loop fuel host ss else ret ss) ;;
       ret (inr ss')
   end)%eng.

(** [scan_until_ready] from line 143 on: a new session. *)
Definition run_session (fuel : nat) (host : string) : M dict :=
  (x <- submit_phase fuel host ;;
   match x with
   | inl d => ret d
   | inr ss => poll_loop fuel host ss
   end)%eng.

(** [if cached and cached.get("status") == "READY"], where [cached] is
    [None] when the lookup raised. *)
Definition cache_hit (c : py dict) : bool :=
  match c with
  | Ok cached => py_truthy (JObj cached) && status_is cached "READY"
  | Exc _ => false
  end.

Definition scan_until_ready (fuel : nat) (host : string) : M dict :=
  (c <- try_ (resultsFromCache host) ;;
   match c with
   | Ok cached =>
       if cache_hit c then ret cached else run_session fuel host
   | Exc _ => run_session fuel host
   end)%eng.

(* ================================================================== *)
(** ** The host gate and the per-host body of [main] *)

Definition has_https (host : string) (port timeout : N) : M bool :=
  (r <- try_ (create_connection host port timeout ;;; sock_close) ;;
   match r with
   | Ok _ => ret true
   | Exc _ => ret false
   end)%eng.

Definition nl : string := String (ascii_of_nat 10) EmptyString.

(** The row written for a host without HTTPS. *)
Definition no_https_row (sub : string) : list json :=
  [JStr sub; JStr "N/A"; JStr "No HTTPS"; JStr "N/A"; JStr "N/A";
   JStr "N/A"; JStr "N/A"; JStr "N/A";
   JStr "N/A"; JStr "N/A"; JStr "N/A"; JStr "N/A";
   JStr "N/A"; JStr "N/A"; JStr "N/A"].

(** The header row [main] writes to the CSV file. *)
Definition csv_header : list string :=
  ["Host"; "IP"; "Grade"; "Status"; "Protocols";
   "Strongest Cipher"; "Weakest Cipher"; "All Ciphers";
   "Cert Subject"; "Cert Issuer"; "Valid From"; "Valid To";
   "Key Algorithm"; "Key Size"; "Chain Issues"].

(** The body of [for sub in subdomains] in [main]; [has_https(sub)] uses
    the defaults [port=443], [timeout=4]. *)
Definition process_host (fuel : nat) (sub : string) : M unit :=
  (up <- has_https sub 443 4 ;;
   if negb up
   then
     writerow (no_https_row sub) ;;;
     txt_write (TxtLit (nl ++ "--- " ++ sub ++ " ---" ++ nl ++
                        "HTTPS not found on this host." ++ nl))
   else
     d <- scan_until_ready fuel sub ;;
     let summary := extract_summary d in
     writerow summary ;;;
     txt_write (TxtLit (nl ++ "--- " ++ sub ++ " ---" ++ nl)) ;;;
     txt_write (TxtJson d) ;;;
     txt_write (TxtLit nl) ;;;
     json_dump ("ssl_reports/" ++ sub ++ ".json") d)%eng.

Fixpoint main_loop (fuel : nat) (subdomains : list string) : M unit :=
  match subdomains with
  | [] => ret tt
  | sub :: rest => (process_host fuel sub ;;; main_loop fuel rest)%eng
  end.

(** [main] on the host list [read_subdomains] returned: the header row,
    then one pass of the loop per host. *)
Definition main (fuel : nat) (subdomains : list string) : M unit :=
  (writerow (map JStr csv_header) ;;; main_loop fuel subdomains)%eng.



(* ================================================================== *)
(** ** Vocabulary of the properties *)

(** The durations of the backoff waits logged in a trace, oldest first. *)
Definition backoff_waits (tr : list event) : list N :=
  flat_map (fun e => match e with
                     | EvSleep BackoffWait n => [n]
                     | _ => []
                     end) tr.

(** Every sleep logged in a trace. *)
Definition sleeps (tr : list event) : list N :=
  flat_map (fun e => match e with EvSleep _ n => [n] | _ => [] end) tr.

(** The number of [ssl.newScan] calls logged in a trace. *)
Definition remote_calls (tr : list event) : nat :=
  List.length (filter (fun e => match e with
                                | EvNewScan _ => true
                                | _ => false
                                end) tr).

(** The [k]-th wait (counted from 0) of the doubling schedule. *)
Definition nth_wait (k : nat) : N :=
  N.min (BACKOFF_START * 2 ^ N.of_nat k) BACKOFF_MAX.

Definition schedule (n : nat) : list N := map nth_wait (seq 0 n).

(** A response that reports quota-exceeded. *)
Definition quota_exceeded (d : dict) : Prop := is_limit_error d = Ok true.

(** The state right after the [ssl.newScan] call made in state [s]. *)
Definition after_call (host : string) (w : env) (s : st) : st :=
  advance (latency (scan_reply w (calls s))) (count_call (log (EvNewScan host) s)).

(** The state right after the cache lookup made in state [s]. *)
Definition after_cache (host : string) (w : env) (s : st) : st :=
  advance (latency (cache_reply w host)) (log (EvCache host) s).

(** A READY payload in the shape of version 3 of the SSL Labs API, where
    [details.suites] is a list of per-protocol objects and not one object
    with a [list] key. *)
Definition v3_payload : dict :=
  [("host", JStr "www.example.com");
   ("status", JStr "READY");
   ("endpoints",
    JList [JObj [("ipAddress", JStr "93.184.216.34");
                 ("grade", JStr "A");
                 ("details",
                  JObj [("suites",
                         JList [JObj [("protocol", JInt 771);
                                      ("list", JList [])]])])]])].

(** The interval after [k] escalations, starting from [b]. *)
Fixpoint escalate (k : nat) (b : N) : N :=
  match k with
  | O => b
  | S k' => escalate k' (N.min (b * 2) BACKOFF_MAX)
  end.

(** The states a pass of the poll loop goes through. *)
Definition at_check (s : st) : st := log (EvClock (now s)) s.

Definition at_poll_sleep (s : st) : st :=
  advance POLL_WAIT (log (EvSleep PollWait POLL_WAIT) (at_check s)).

Definition at_backoff (b : N) (s : st) : st :=
  advance (N.min b BACKOFF_MAX) (log (EvSleep BackoffWait (N.min b BACKOFF_MAX)) s).

Definition next_backoff (b : N) : N := N.min (b * 2) BACKOFF_MAX.

(** The effects of [k] passes of the retry loop entered with interval [b]. *)
Fixpoint retry_events (host : string) (b : N) (k : nat) : list event :=
  match k with
  | O => []
  | S k' =>
      EvSleep BackoffWait (N.min b BACKOFF_MAX) :: EvNewScan host ::
      retry_events host (next_backoff b) k'
  end.

(** A reply that reports quota-exceeded. *)
Definition reports_limit (o : py dict) : bool :=
  match o with
  | Ok d => match is_limit_error d with Ok true => true | _ => false end
  | Exc _ => false
  end.

(** A reply that ends the retry loop: a response that is not
    quota-exceeded, or a transport failure. *)
Definition resolves (o : py dict) : bool :=
  match o with
  | Ok d => match is_limit_error d with Ok false => true | _ => false end
  | Exc _ => true
  end.

(** The data the retry loop leaves with on reply [o]. *)
Definition retry_data (host : string) (o : py dict) : dict :=
  match o with
  | Ok d => d
  | Exc e => error_result host "newScan retry failed" e
  end.

(** The backoff wait slept right before the [j]-th [ssl.newScan] call of a
    trace (counted from 1), if that call was made right after one; [prev]
    is the backoff wait just seen, if any. *)
Fixpoint wait_before_call (tr : list event) (prev : option N) (j : nat) : option N :=
  match tr with
  | [] => None
  | EvNewScan _ :: rest =>
      match j with
      | O => None
      | S O => prev
      | S j' => wait_before_call rest None j'
      end
  | EvSleep BackoffWait n :: rest => wait_before_call rest (Some n) j
  | _ :: rest => wait_before_call rest None j
  end.

(** The events [t] logged since [t0] contain backoff waits that follow the
    doubling schedule from its start, and [b] is the interval the schedule
    has reached. *)
Definition sched_inv (t0 : list event) (b : N) (t : list event) : Prop :=
  exists tr,
    t = (t0 ++ tr)%list /\
    backoff_waits tr = schedule (List.length (backoff_waits tr)) /\
    b = escalate (List.length (backoff_waits tr)) BACKOFF_START.








(** A response the engine can classify and annotate without raising:
    [is_limit_error] returns on it and its [warnings], if any, is a list. *)
Definition well_shaped (d : dict) : bool :=
  is_ok (is_limit_error d) && is_ok (mark_timeout d).

(** A result whose newest warning is the timeout warning. *)
Definition timed_out (d : dict) : bool :=
  match dict_get "warnings" d with
  | Some (JList ws) =>
      match last ws JNull with
      | JStr x => String.eqb x timeout_warning
      | _ => false
      end
  | _ => false
  end.

(** Data with which the poll loop cannot raise. *)
Definition pollable (d : dict) : Prop :=
  is_terminal d = true \/ is_ok (mark_timeout d) = true.

(** The warnings a response already carries. *)
Definition warnings_of (d : dict) : list json :=
  match dict_get "warnings" d with
  | Some (JList ws) => ws
  | _ => []
  end.

(** Every clock reading logged in [tr] is less than the polling ceiling
    away from [t0]. *)
Definition early (t0 : N) (tr : list event) : Prop :=
  forall t, In (EvClock t) tr -> (t - t0 < MAX_POLL_MINUTES * 60)%N.

(** The first clock reading logged in a trace: the session start. *)
Fixpoint session_start (tr : list event) : option N :=
  match tr with
  | [] => None
  | EvClock t :: _ => Some t
  | _ :: rest => session_start rest
  end.

(** The session holds the newest response, was started at [t0], and no
    clock reading so far has reached the ceiling. *)
Definition polling (w : env) (c0 : nat) (t0 : N) (pre : list event)
           (ss : session) (s : st) : Prop :=
  c0 < calls s /\
  outcome (scan_reply w (pred (calls s))) = Ok (data ss) /\
  started_at ss = t0 /\
  exists mid, trace s = (pre ++ mid)%list /\ early t0 mid.

(** The result is the newest response with the timeout warning, returned
    at the first clock reading that has reached the ceiling. *)
Definition gave_up (w : env) (c0 : nat) (t0 : N) (pre : list event)
           (d : dict) (s' : st) : Prop :=
  exists d0 mid,
    c0 < calls s' /\
    outcome (scan_reply w (pred (calls s'))) = Ok d0 /\
    mark_timeout d0 = Ok d /\
    trace s' = (pre ++ mid ++ [EvClock (now s')])%list /\
    early t0 mid /\
    (MAX_POLL_MINUTES * 60 <= now s' - t0)%N.

(* ================================================================== *)
(** ** Sample replies and environments *)

(** The error the service answers when its concurrency quota is used up. *)
Definition limit_response : dict :=
  [("errors",
    JList [JObj [("message",
                  JStr "Concurrent assessment limit reached (10/10)")]])].

Definition ready_response (h : string) : dict :=
  [("host", JStr h); ("status", JStr "READY")].

Definition in_progress_response (h : string) : dict :=
  [("host", JStr h); ("status", JStr "IN_PROGRESS")].

(** A fresh run: time 0, nothing called, nothing logged or written. *)
Definition fresh : st := mkSt 0 0 [] [] [] [].

Definition no_cache : string -> reply dict :=
  fun _ => mkReply 0 (Exc "no cached report").

Definition reachable : string -> reply unit := fun _ => mkReply 0 (Ok tt).

(** Quota exceeded once, then READY. *)
Definition limited_once : env :=
  mkEnv no_cache
        (fun k => match k with
                  | O => mkReply 0 (Ok limit_response)
                  | _ => mkReply 0 (Ok (ready_response "www.example.com"))
                  end)
        reachable.

(** Quota exceeded on every call. *)
Definition limited_forever : env :=
  mkEnv no_cache (fun _ => mkReply 0 (Ok limit_response)) reachable.

(** Every call takes one second and reports an assessment in progress. *)
Definition slow_in_progress : env :=
  mkEnv no_cache
        (fun _ => mkReply 1 (Ok (in_progress_response "www.example.com")))
        reachable.



(** The cache holds a finished report. *)
Definition cached_report : env :=
  mkEnv (fun h => mkReply 0 (Ok (ready_response h)))
        (fun _ => mkReply 0 (Exc "connection timed out"))
        reachable.

(** READY on the first call. *)
Definition ready_at_once : env :=
  mkEnv no_cache
        (fun _ => mkReply 0 (Ok (ready_response "www.example.com")))
        reachable.

(** No host accepts connections on port 443. *)
Definition no_https : env :=
  mkEnv no_cache
        (fun _ => mkReply 0 (Ok (ready_response "www.example.com")))
        (fun _ => mkReply 0 (Exc "[Errno 111] Connection refused")).

(** A response whose [errors] list holds a number instead of an object. *)
Definition malformed_response : dict :=
  [("status", JStr "IN_PROGRESS"); ("errors", JList [JInt 1])].

Definition malformed : env :=
  mkEnv no_cache (fun _ => mkReply 0 (Ok malformed_response)) reachable.

(** A [repr] for payloads whose messages are all strings, where [str]
    never falls back on it. *)
Definition repr_unused (v : json) : string := py_type_name v.

(** A session in the middle of polling. *)
Definition mid_session : session :=
  mkSession (in_progress_response "www.example.com") BACKOFF_START 0 2.

(* ================================================================== *)
(** ** The host list: [read_subdomains] *)

(** The first loop of [read_subdomains], over the lines the file yields:
    strip, skip blank lines, comments and separators, keep the rest. *)
Fixpoint collect_lines (lines : list string) : list string :=
  match lines with
  | [] => []
  | line :: rest =>
      let line := py_strip line in
      if String.eqb line "" || is_prefix "#" line || is_prefix "---" line
      then collect_lines rest
      else line :: collect_lines rest
  end.

(** [s in seen] *)
Definition mem (s : string) (seen : list string) : bool :=
  existsb (String.eqb s) seen.

(** The second loop of [read_subdomains]: de-dup but preserve order. *)
Fixpoint dedup_loop (subs seen ordered : list string) : list string :=
  match subs with
  | [] => ordered
  | s :: rest =>
      if mem s seen
      then dedup_loop rest seen ordered
      else dedup_loop rest (s :: seen) (ordered ++ [s])
  end.

Definition read_subdomains (lines : list string) : list string :=
  dedup_loop (collect_lines lines) [] [].

(** What makes the first loop keep a stripped line. *)
Definition kept (line : string) : Prop :=
  line <> "" /\ is_prefix "#" line = false /\ is_prefix "---" line = false.

(* ================================================================== *)
(** ** Pacing of remote calls *)

(** Scanning a trace for two [ssl.newScan] calls without a sleep between
    them: [Some rested] while none was found, [rested] telling whether a
    sleep came after the newest call ([None] once two calls touched). *)
Definition pace_step (acc : option bool) (e : event) : option bool :=
  match acc with
  | None => None
  | Some rested =>
      match e with
      | EvNewScan _ => if rested then Some false else None
      | EvSleep _ _ => Some true
      | _ => Some rested
      end
  end.

Definition paced (tr : list event) : bool :=
  match fold_left pace_step tr (Some true) with
  | Some _ => true
  | None => false
  end.

(** The number of poll waits logged in a trace. *)
Definition poll_waits (tr : list event) : nat :=
  List.length (filter (fun e => match e with
                                | EvSleep PollWait _ => true
                                | _ => false
                                end) tr).

(** The most poll waits the ceiling leaves room for. *)
Definition max_polls : nat := N.to_nat (MAX_POLL_MINUTES * 60 / POLL_WAIT).

(** The events [tr] since the session start at [t0] hold [n] poll waits,
    each paid for by [POLL_WAIT] seconds of the clock [t]. *)
Definition poll_budget (t0 t : N) (tr : list event) : Prop :=
  poll_waits tr <= max_polls /\
  (t0 <= t)%N /\
  (POLL_WAIT * N.of_nat (poll_waits tr) <= t - t0)%N.

(** The events logged since [base] hold no two calls without a sleep
    between them, and [rested] tells whether the newest call was followed
    by a sleep. *)
Definition pace_at (base : list event) (rested : bool) (t : list event) : Prop :=
  exists tr, t = (base ++ tr)%list /\
             fold_left pace_step tr (Some true) = Some rested.

(** State [s] extends [base] within the poll budget of a session started
    at [t0]. *)
Definition poll_ok (base : list event) (t0 : N) (s : st) : Prop :=
  exists tr, trace s = (base ++ tr)%list /\ poll_budget t0 (now s) tr.

(** The seconds slept by [k] passes of the retry loop entered with
    interval [b]. *)
Fixpoint waits_total (b : N) (k : nat) : N :=
  match k with
  | O => 0
  | S k' => N.min b BACKOFF_MAX + waits_total (next_backoff b) k'
  end.

(** A response whose first [errors] entry matches and whose second is not
    an object. *)
Definition limit_then_junk : dict :=
  [("errors",
    JList [JObj [("message", JStr "Concurrent assessment limit reached (10/10)")];
           JInt 1])].

(** Quota exceeded five times, then an assessment in progress. *)
Definition limited_five_times : env :=
  mkEnv no_cache
        (fun k => if Nat.ltb k 5
                  then mkReply 0 (Ok limit_response)
                  else mkReply 0 (Ok (in_progress_response "www.example.com")))
        reachable.

(* ================================================================== *)
(** ** The states of the loop of [main] *)

(** The state right after the reachability probe of [sub]. *)
Definition after_probe (sub : string) (w : env) (s : st) : st :=
  advance (latency (connect_reply w sub)) (log (EvConnect sub 443 4) s).

(** The outputs after the loop body skipped [sub] for lack of HTTPS. *)
Definition skipped (sub : string) (s : st) : st :=
  mkSt (now s) (calls s) (trace s)
       (csv s ++ [no_https_row sub])
       (txt s ++ [TxtLit (nl ++ "--- " ++ sub ++ " ---" ++ nl ++
                          "HTTPS not found on this host." ++ nl)])
       (files s).

(** The outputs after the loop body reported the result [d] of [sub]. *)
Definition reported (sub : string) (d : dict) (s : st) : st :=
  mkSt (now s) (calls s) (trace s)
       (csv s ++ [extract_summary d])
       (txt s ++ [TxtLit (nl ++ "--- " ++ sub ++ " ---" ++ nl); TxtJson d; TxtLit nl])
       (files s ++ [("ssl_reports/" ++ sub ++ ".json", d)]).

(** [has_https(sub)] in environment [w]. *)
Definition has_port_443 (w : env) (sub : string) : bool :=
  is_ok (outcome (connect_reply w sub)).

(** Two states with the same output files. *)
Definition same_outputs (s s' : st) : Prop :=
  csv s' = csv s /\ txt s' = txt s /\ files s' = files s.

(* ================================================================== *)
(** ** txttoexcel.py: [flatten_json] *)

(** [isinstance(v, list)] *)
Definition is_list (v : json) : bool :=
  match v with JList _ => true | _ => false end.

(** Neither a dict nor a list: what [flatten_json] stores as a cell. *)
Definition is_scalar (v : json) : bool := negb (is_dict v) && negb (is_list v).

(** [s[:-1]] *)
Fixpoint drop_last (s : string) : string :=
  match s with
  | EmptyString => EmptyString
  | String c rest =>
      match rest with
      | EmptyString => EmptyString
      | String _ _ => String c (drop_last rest)
      end
  end.

(** [str(i)] for an index of [enumerate]. *)
Definition str_of_nat (i : nat) : string :=
  NilZero.string_of_uint (Nat.to_uint i).

(** [out.update(other)] *)
Definition dict_update (out other : dict) : dict :=
  fold_left (fun o kv => dict_set (fst kv) (snd kv) o) other out.

(** [f"{prefix}{k}." if prefix else f"{k}."] *)
Definition child_prefix (prefix k : string) : string :=
  if String.eqb prefix "" then k ++ "." else prefix ++ k ++ ".".

(** [for k, v in y.items(): out.update(flatten_json(v, ...))], with the
    recursive call as [f]. *)
Fixpoint flatten_items (f : json -> string -> dict) (prefix : string)
         (kv : list (string * json)) (out : dict) : dict :=
  match kv with
  | [] => out
  | (k, v) :: rest =>
      flatten_items f prefix rest (dict_update out (f v (child_prefix prefix k)))
  end.

(** [for i, item in enumerate(y): out.update(flatten_json(item, ...))] from
    index [i] on. *)
Fixpoint flatten_enum (f : json -> string -> dict) (prefix : string)
         (l : list json) (i : nat) (out : dict) : dict :=
  match l with
  | [] => out
  | item :: rest =>
      flatten_enum f prefix rest (S i)
                   (dict_update out (f item (prefix ++ str_of_nat i ++ ".")))
  end.

Fixpoint flatten_json (y : json) (prefix : string) : dict :=
  match y with
  | JObj kv => flatten_items flatten_json prefix kv []
  | JList l => flatten_enum flatten_json prefix l 0 []
  | _ => [(drop_last prefix, y)]
  end.

(** A flat record: distinct keys, no dict or list among its values. *)
Definition flat (d : dict) : Prop :=
  NoDup (map fst d) /\ Forall (fun kv => is_scalar (snd kv) = true) d.

(** Every key of [d] starts with [p]. *)
Definition keys_under (p : string) (d : dict) : Prop :=
  Forall (fun kv => is_prefix p (fst kv) = true) d.

(** The fields of a nested sample payload. *)
Definition nested_fields : dict :=
  [("host", JStr "www.example.com");
   ("endpoints",
    JList [JObj [("grade", JStr "A");
                 ("details", JObj [("protocols", JList [])])];
           JObj [("grade", JStr "B")]])].

(* ================================================================== *)
(** ** Running the primitives *)

Lemma bind_Ret {A B} (c : M A) (k : A -> M B) (w : world) s a s1 :
  c w s = (Ret a, s1) -> bind c k w s = k a w s1.
Proof. intros H. unfold bind. now rewrite H. Qed.

Lemma bind_Raise {A B} (c : M A) (k : A -> M B) (w : world) s e s1 :
  c w s = (Raise e, s1) -> bind c k w s = (Raise e, s1).
Proof. intros H. unfold bind. now rewrite H. Qed.

Lemma bind_Diverge {A B} (c : M A) (k : A -> M B) (w : world) s s1 :
  c w s = (Diverge, s1) -> bind c k w s = (Diverge, s1).
Proof. intros H. unfold bind. now rewrite H. Qed.

Lemma try_newScan host (w : env) s :
  try_ (newScan host) w s = (Ret (outcome (scan_reply w (calls s))), after_call host w s).
Proof.
  unfold try_, newScan, answer, after_call. simpl.
  destruct (outcome (scan_reply w (calls s))); reflexivity.
Qed.

Lemma newScan_Ok host (w : env) s d :
  outcome (scan_reply w (calls s)) = Ok d ->
  newScan host w s = (Ret d, after_call host w s).
Proof.
  intros H. unfold newScan, answer, after_call. simpl. now rewrite H.
Qed.

Lemma newScan_Exc host (w : env) s e :
  outcome (scan_reply w (calls s)) = Exc e ->
  newScan host w s = (Raise e, after_call host w s).
Proof.
  intros H. unfold newScan, answer, after_call. simpl. now rewrite H.
Qed.

Lemma try_resultsFromCache host (w : env) s :
  try_ (resultsFromCache host) w s =
  (Ret (outcome (cache_reply w host)), after_cache host w s).
Proof.
  unfold try_, resultsFromCache, answer, after_cache.
  cbn [quiet replies cache_interrupt].
  destruct (outcome (cache_reply w host)); reflexivity.
Qed.

Lemma status_is_nonempty d x : status_is d x = true -> py_truthy (JObj d) = true.
Proof. destruct d; [discriminate | reflexivity]. Qed.

(** A terminal response leaves the poll loop at once, whatever the fuel. *)
Lemma poll_loop_terminal fuel host ss (w : world) s :
  is_terminal (data ss) = true ->
  poll_loop fuel host ss w s = (Ret (data ss), s).
Proof.
  intros H. destruct fuel; simpl; unfold bind, poll_iter; rewrite H; reflexivity.
Qed.

Lemma scan_until_ready_miss fuel host (w : env) s :
  cache_hit (outcome (cache_reply w host)) = false ->
  scan_until_ready fuel host w s = run_session fuel host w (after_cache host w s).
Proof.
  intros H. unfold scan_until_ready.
  rewrite (bind_Ret _ _ _ _ _ _ (try_resultsFromCache host w s)).
  destruct (outcome (cache_reply w host)); [rewrite H|]; reflexivity.
Qed.

(** What one pass of the retry loop does, by cases on the reply. *)
Lemma retry_iter_run host ss (w : env) s :
  let s1 := after_call host w (at_backoff (backoff ss) s) in
  let b := next_backoff (backoff ss) in
  retry_iter host ss w s =
  match outcome (scan_reply w (calls s)) with
  | Exc e =>
      (Ret (mkSession (error_result host "newScan retry failed" e) b
                      (started_at ss) (attempt ss), true), s1)
  | Ok d =>
      match is_limit_error d with
      | Ok lim => (Ret (mkSession d b (started_at ss) (attempt ss), negb lim), s1)
      | Exc e => (Raise e, s1)
      end
  end.
Proof.
  intros s1 b. unfold retry_iter.
  unfold bind at 1. unfold sleep at 1.
  unfold bind at 1. rewrite try_newScan.
  change (calls (advance _ _)) with (calls s).
  destruct (outcome (scan_reply w (calls s))) as [d | e]; [| reflexivity].
  unfold bind, lift. destruct (is_limit_error d); reflexivity.
Qed.

(** What one pass of the poll loop does, by cases on the session and on
    the replies. *)
Lemma poll_iter_run host ss (w : env) s :
  poll_iter host ss w s =
  if is_terminal (data ss) then (Ret (inl (data ss)), s)
  else if (MAX_POLL_MINUTES * 60 <=? now s - started_at ss)%N then
    match mark_timeout (data ss) with
    | Ok d => (Ret (inl d), at_check s)
    | Exc e => (Raise e, at_check s)
    end
  else
    let s2 := after_call host w (at_poll_sleep s) in
    let failed e := inl (error_result host "poll failed" e) in
    let next d b := inr (mkSession d b (started_at ss) (S (attempt ss))) in
    match outcome (scan_reply w (calls s)) with
    | Exc e => (Ret (failed e), s2)
    | Ok d =>
        match is_limit_error d with
        | Exc e => (Ret (failed e), s2)
        | Ok false => (Ret (next d (backoff ss)), s2)
        | Ok true =>
            let s4 := after_call host w (at_backoff (backoff ss) s2) in
            match outcome (scan_reply w (S (calls s))) with
            | Exc e => (Ret (failed e), s4)
            | Ok d' => (Ret (next d' (next_backoff (backoff ss))), s4)
            end
        end
    end.
Proof.
  unfold poll_iter.
  destruct (is_terminal (data ss)); [reflexivity |].
  unfold bind at 1. unfold time_time. fold (at_check s).
  destruct (MAX_POLL_MINUTES * 60 <=? now s - started_at ss)%N.
  - unfold bind, lift, ret. destruct (mark_timeout (data ss)); reflexivity.
  - unfold bind at 1. unfold sleep at 1. fold (at_poll_sleep s).
    unfold bind at 1. unfold try_, repoll. unfold bind at 1.
    unfold newScan at 1. unfold answer at 1.
    change (scan_interrupt w (calls (at_poll_sleep s))) with (@None string).
    change (replies w) with w.
    change (calls (at_poll_sleep s)) with (calls s).
    destruct (outcome (scan_reply w (calls s))) as [d | e]; [| reflexivity].
    unfold bind at 1. unfold lift at 1.
    destruct (is_limit_error d) as [[|] | e]; [| reflexivity | reflexivity].
    unfold bind at 1. unfold sleep at 1.
    unfold bind at 1. unfold newScan at 1. unfold answer at 1.
    change (scan_interrupt w _) with (@None string).
    change (replies w) with w.
    change (calls (advance _ (log _ (advance _ (count_call _)))))
      with (S (calls s)).
    destruct (outcome (scan_reply w (S (calls s)))); reflexivity.
Qed.

Lemma retry_loop_unfold fuel host ss (w : world) s :
  retry_loop fuel host ss w s =
  match retry_iter host ss w s with
  | (Ret (ss', true), s') => (Ret ss', s')
  | (Ret (ss', false), s') =>
      match fuel with
      | O => (Diverge, s')
      | S fuel' => retry_loop fuel' host ss' w s'
      end
  | (Raise e, s') => (Raise e, s')
  | (Diverge, s') => (Diverge, s')
  end.
Proof.
  destruct fuel; simpl; unfold bind;
    destruct (retry_iter host ss w s) as [[[ss' [|]] | e |] s']; reflexivity.
Qed.

Lemma poll_loop_unfold fuel host ss (w : world) s :
  poll_loop fuel host ss w s =
  match poll_iter host ss w s with
  | (Ret (inl d), s') => (Ret d, s')
  | (Ret (inr ss'), s') =>
      match fuel with
      | O => (Diverge, s')
      | S fuel' => poll_loop fuel' host ss' w s'
      end
  | (Raise e, s') => (Raise e, s')
  | (Diverge, s') => (Diverge, s')
  end.
Proof.
  destruct fuel; simpl; unfold bind;
    destruct (poll_iter host ss w s) as [[[d | ss'] | e |] s']; reflexivity.
Qed.

(** Invariant rules for the two loops: [P] holds on entry of every pass,
    [Q] of every way the loop can end, running out of fuel included. *)
Lemma retry_loop_rule host (w : world)
      (P : session -> st -> Prop) (Q : res session -> st -> Prop) :
  (forall ss s, P ss s ->
     match retry_iter host ss w s with
     | (Ret (ss', true), s') => Q (Ret ss') s'
     | (Ret (ss', false), s') => P ss' s' /\ Q Diverge s'
     | (Raise e, s') => Q (Raise e) s'
     | (Diverge, s') => Q Diverge s'
     end) ->
  forall fuel ss s, P ss s ->
    Q (fst (retry_loop fuel host ss w s)) (snd (retry_loop fuel host ss w s)).
Proof.
  intros Hstep. induction fuel as [| fuel IH]; intros ss s HP;
    rewrite retry_loop_unfold; specialize (Hstep ss s HP);
    destruct (retry_iter host ss w s) as [[[ss' [|]] | e |] s']; simpl;
    try exact Hstep; try (apply Hstep); apply IH; apply Hstep.
Qed.

Lemma poll_loop_rule host (w : world)
      (P : session -> st -> Prop) (Q : res dict -> st -> Prop) :
  (forall ss s, P ss s ->
     match poll_iter host ss w s with
     | (Ret (inl d), s') => Q (Ret d) s'
     | (Ret (inr ss'), s') => P ss' s' /\ Q Diverge s'
     | (Raise e, s') => Q (Raise e) s'
     | (Diverge, s') => Q Diverge s'
     end) ->
  forall fuel ss s, P ss s ->
    Q (fst (poll_loop fuel host ss w s)) (snd (poll_loop fuel host ss w s)).
Proof.
  intros Hstep. induction fuel as [| fuel IH]; intros ss s HP;
    rewrite poll_loop_unfold; specialize (Hstep ss s HP);
    destruct (poll_iter host ss w s) as [[[d | ss'] | e |] s']; simpl;
    try exact Hstep; try (apply Hstep); apply IH; apply Hstep.
Qed.

Lemma submit_phase_run fuel host (w : env) s :
  let s1 := after_call host w (at_check s) in
  submit_phase fuel host w s =
  match outcome (scan_reply w (calls s)) with
  | Exc e => (Ret (inl (error_result host "newScan failed" e)), s1)
  | Ok d =>
      let ss := mkSession d BACKOFF_START (now s) O in
      match is_limit_error d with
      | Exc e => (Raise e, s1)
      | Ok false => (Ret (inr ss), s1)
      | Ok true =>
          match retry_loop fuel host ss w s1 with
          | (Ret ss', s') => (Ret (inr ss'), s')
          | (Raise e, s') => (Raise e, s')
          | (Diverge, s') => (Diverge, s')
          end
      end
  end.
Proof.
  intros s1. unfold submit_phase.
  unfold bind at 1. unfold time_time. fold (at_check s).
  unfold bind at 1. rewrite try_newScan.
  change (calls (at_check s)) with (calls s). fold s1.
  destruct (outcome (scan_reply w (calls s))) as [d | e]; [| reflexivity].
  unfold bind at 1. unfold lift at 1.
  destruct (is_limit_error d) as [[|] | e]; reflexivity.
Qed.

Lemma run_session_unfold fuel host (w : world) s :
  run_session fuel host w s =
  match submit_phase fuel host w s with
  | (Ret (inl d), s') => (Ret d, s')
  | (Ret (inr ss), s') => poll_loop fuel host ss w s'
  | (Raise e, s') => (Raise e, s')
  | (Diverge, s') => (Diverge, s')
  end.
Proof.
  unfold run_session, bind.
  destruct (submit_phase fuel host w s) as [[[d | ss] | e |] s']; reflexivity.
Qed.

(* ================================================================== *)
(** ** The submission phase *)

Lemma escalate_S k b : escalate (S k) b = next_backoff (escalate k b).
Proof.
  revert b. induction k as [| k IH]; intros b; [reflexivity |].
  change (escalate (S (S k)) b) with (escalate (S k) (next_backoff b)).
  rewrite IH. reflexivity.
Qed.

Lemma escalate_closed k :
  escalate k BACKOFF_START = N.min (BACKOFF_START * 2 ^ N.of_nat k) BACKOFF_MAX.
Proof.
  induction k as [| k IH].
  - reflexivity.
  - rewrite escalate_S, IH. unfold next_backoff.
    rewrite Nat2N.inj_succ, N.pow_succ_r'.
    unfold BACKOFF_START, BACKOFF_MAX. lia.
Qed.

Lemma escalate_wait k : N.min (escalate k BACKOFF_START) BACKOFF_MAX = nth_wait k.
Proof. rewrite escalate_closed. unfold nth_wait. lia. Qed.

(** The retry loop leaves with the first reply that resolves. *)
Lemma retry_loop_exits host (w : env) K :
  forall fuel ss s,
    K <= fuel ->
    (forall i, i < K -> reports_limit (outcome (scan_reply w (calls s + i))) = true) ->
    resolves (outcome (scan_reply w (calls s + K))) = true ->
    exists s',
      retry_loop fuel host ss w s =
        (Ret (mkSession (retry_data host (outcome (scan_reply w (calls s + K))))
                        (escalate (S K) (backoff ss)) (started_at ss) (attempt ss)),
         s') /\
      calls s' = calls s + S K /\
      trace s' = (trace s ++ retry_events host (backoff ss) (S K))%list /\
      (now s <= now s')%N.
Proof.
  induction K as [| K IH]; intros fuel ss s Hfuel Hlim Hres.
  - rewrite Nat.add_0_r in Hres.
    rewrite retry_loop_unfold, retry_iter_run, Nat.add_0_r.
    unfold resolves in Hres.
    destruct (outcome (scan_reply w (calls s))) as [d | e].
    + destruct (is_limit_error d) as [[|] | e]; try discriminate.
      simpl. eexists. repeat split; simpl; try lia.
      now rewrite <- !app_assoc.
    + simpl. eexists. repeat split; simpl; try lia.
      now rewrite <- !app_assoc.
  - destruct fuel as [| fuel]; [lia |].
    rewrite retry_loop_unfold, retry_iter_run.
    pose proof (Hlim 0 ltac:(lia)) as H0. rewrite Nat.add_0_r in H0.
    unfold reports_limit in H0.
    destruct (outcome (scan_reply w (calls s))) as [d | e]; [| discriminate].
    destruct (is_limit_error d) as [[|] | e]; try discriminate.
    simpl negb. cbv iota.
    set (s1 := after_call host w (at_backoff (backoff ss) s)).
    set (ss1 := mkSession d (next_backoff (backoff ss)) (started_at ss) (attempt ss)).
    assert (Hc : calls s1 = S (calls s)) by reflexivity.
    destruct (IH fuel ss1 s1) as (s' & Hrun & Hcalls & Htrace & Hnow).
    + lia.
    + intros i Hi. rewrite Hc. replace (S (calls s) + i) with (calls s + S i) by lia.
      apply Hlim. lia.
    + rewrite Hc. replace (S (calls s) + K) with (calls s + S K) by lia. exact Hres.
    + exists s'. rewrite Hrun.
      rewrite Hc in *. replace (S (calls s) + K) with (calls s + S K) by lia.
      repeat split.
      * lia.
      * rewrite Htrace. simpl. rewrite <- !app_assoc. reflexivity.
      * simpl in Hnow. lia.
Qed.

Lemma backoff_waits_retry_events host k n :
  backoff_waits (retry_events host (escalate n BACKOFF_START) k) = map nth_wait (seq n k).
Proof.
  revert n. induction k as [| k IH]; intros n; [reflexivity |].
  simpl. rewrite escalate_wait. f_equal.
  rewrite <- escalate_S. apply IH.
Qed.

Lemma remote_calls_retry_events host b k :
  remote_calls (retry_events host b k) = k.
Proof.
  revert b. induction k as [| k IH]; intros b; [reflexivity |].
  simpl. unfold remote_calls in *. simpl. now rewrite IH.
Qed.

(** C7: when the first [K] replies of the submission phase report
    quota-exceeded and the next one is a response that does not, the
    submission phase makes exactly [K + 1] calls, sleeping one backoff wait
    before each retry, and enters the poll loop with that response. *)
Theorem submission_retries_until_resolved K fuel host (w : env) s d :
  K <= fuel ->
  (forall i, i < K -> reports_limit (outcome (scan_reply w (calls s + i))) = true) ->
  outcome (scan_reply w (calls s + K)) = Ok d ->
  is_limit_error d = Ok false ->
  exists s',
    submit_phase fuel host w s =
      (Ret (inr (mkSession d (escalate K BACKOFF_START) (now s) O)), s') /\
    calls s' = calls s + (K + 1) /\
    trace s' = (trace s ++ [EvClock (now s); EvNewScan host] ++
                retry_events host BACKOFF_START K)%list /\
    remote_calls ([EvClock (now s); EvNewScan host] ++
                  retry_events host BACKOFF_START K) = K + 1 /\
    backoff_waits (retry_events host BACKOFF_START K) = schedule K.
Proof.
  intros Hfuel Hlim Hd Hnl.
  assert (Hcount : remote_calls ([EvClock (now s); EvNewScan host] ++
                                 retry_events host BACKOFF_START K) = K + 1).
  { change (remote_calls (_ ++ _))
      with (S (remote_calls (retry_events host BACKOFF_START K))).
    rewrite remote_calls_retry_events. lia. }
  assert (Hsched : backoff_waits (retry_events host BACKOFF_START K) = schedule K)
    by apply (backoff_waits_retry_events host K 0).
  rewrite submit_phase_run.
  destruct K as [| K].
  - rewrite Nat.add_0_r in Hd. rewrite Hd, Hnl. cbv zeta.
    eexists. repeat split; simpl; try lia.
    now rewrite <- !app_assoc.
  - pose proof (Hlim 0 ltac:(lia)) as H0. rewrite Nat.add_0_r in H0.
    unfold reports_limit in H0.
    destruct (outcome (scan_reply w (calls s))) as [d0 | e]; [| discriminate].
    destruct (is_limit_error d0) as [[|] | e]; try discriminate.
    cbv zeta.
    set (s1 := after_call host w (at_check s)).
    set (ss := mkSession d0 BACKOFF_START (now s) O).
    assert (Hc : calls s1 = S (calls s)) by reflexivity.
    destruct (retry_loop_exits host w K fuel ss s1) as (s' & Hrun & Hcalls & Htrace & _).
    + lia.
    + intros i Hi. rewrite Hc. replace (S (calls s) + i) with (calls s + S i) by lia.
      apply Hlim. lia.
    + rewrite Hc. replace (S (calls s) + K) with (calls s + S K) by lia.
      rewrite Hd. unfold resolves. now rewrite Hnl.
    + rewrite Hc in *. replace (S (calls s) + K) with (calls s + S K) in Hrun by lia.
      rewrite Hd in Hrun. simpl retry_data in Hrun.
      exists s'. rewrite Hrun. repeat split; try assumption.
      * lia.
      * rewrite Htrace. simpl. rewrite <- !app_assoc. reflexivity.
Qed.

(* ================================================================== *)
(** ** The backoff schedule *)

Lemma trace_after_call host (w : env) s :
  trace (after_call host w s) = (trace s ++ [EvNewScan host])%list.
Proof. reflexivity. Qed.

Lemma trace_at_backoff b s :
  trace (at_backoff b s) = (trace s ++ [EvSleep BackoffWait (N.min b BACKOFF_MAX)])%list.
Proof. reflexivity. Qed.

Lemma trace_at_check s : trace (at_check s) = (trace s ++ [EvClock (now s)])%list.
Proof. reflexivity. Qed.

Lemma trace_at_poll_sleep s :
  trace (at_poll_sleep s) = (trace (at_check s) ++ [EvSleep PollWait POLL_WAIT])%list.
Proof. reflexivity. Qed.

Lemma trace_after_cache host (w : env) s :
  trace (after_cache host w s) = (trace s ++ [EvCache host])%list.
Proof. reflexivity. Qed.

Lemma backoff_waits_app t1 t2 :
  backoff_waits (t1 ++ t2) = (backoff_waits t1 ++ backoff_waits t2)%list.
Proof. apply flat_map_app. Qed.

Lemma schedule_S n : schedule (S n) = (schedule n ++ [nth_wait n])%list.
Proof. unfold schedule. rewrite seq_S, map_app. reflexivity. Qed.

Lemma sched_inv_start t0 : sched_inv t0 BACKOFF_START t0.
Proof. exists []. rewrite app_nil_r. repeat split. Qed.

Lemma sched_inv_quiet t0 b t e :
  sched_inv t0 b t -> backoff_waits [e] = [] -> sched_inv t0 b (t ++ [e]).
Proof.
  intros (tr & -> & Hs & Hb) He. exists (tr ++ [e])%list.
  rewrite backoff_waits_app, He, app_nil_r, app_assoc. auto.
Qed.

Lemma sched_inv_backoff t0 b t :
  sched_inv t0 b t ->
  sched_inv t0 (next_backoff b) (t ++ [EvSleep BackoffWait (N.min b BACKOFF_MAX)]).
Proof.
  intros (tr & -> & Hs & Hb).
  exists (tr ++ [EvSleep BackoffWait (N.min b BACKOFF_MAX)])%list.
  rewrite backoff_waits_app, app_assoc.
  change (backoff_waits [EvSleep BackoffWait (N.min b BACKOFF_MAX)])
    with [N.min b BACKOFF_MAX].
  rewrite length_app, Nat.add_1_r, schedule_S, escalate_S, <- Hs, <- Hb.
  repeat split. f_equal. f_equal. rewrite Hb. apply escalate_wait.
Qed.

Ltac sched :=
  rewrite ?trace_after_call, ?trace_at_backoff, ?trace_at_poll_sleep,
          ?trace_at_check, ?trace_after_cache;
  repeat first [ assumption
               | apply sched_inv_backoff
               | apply sched_inv_quiet; [| reflexivity] ].

Lemma retry_loop_sched host (w : env) t0 fuel ss s :
  sched_inv t0 (backoff ss) (trace s) ->
  match retry_loop fuel host ss w s with
  | (Ret ss', s') => sched_inv t0 (backoff ss') (trace s')
  | (_, s') => exists b, sched_inv t0 b (trace s')
  end.
Proof.
  intros H.
  pose proof (retry_loop_rule host w
    (fun ss s => sched_inv t0 (backoff ss) (trace s))
    (fun r s' => match r with
                 | Ret ss' => sched_inv t0 (backoff ss') (trace s')
                 | _ => exists b, sched_inv t0 b (trace s')
                 end)) as R.
  specialize (R ltac:(
    clear; intros ss s H; rewrite retry_iter_run;
    destruct (outcome (scan_reply w (calls s))) as [d | e];
    [ destruct (is_limit_error d) as [[|] | e] |]; simpl;
    repeat split; try (exists (next_backoff (backoff ss))); sched) fuel ss s H).
  destruct (retry_loop fuel host ss w s) as [[ss' | e |] s']; exact R.
Qed.

Lemma poll_loop_sched host (w : env) t0 fuel ss s :
  sched_inv t0 (backoff ss) (trace s) ->
  exists b, sched_inv t0 b (trace (snd (poll_loop fuel host ss w s))).
Proof.
  apply (poll_loop_rule host w
    (fun ss s => sched_inv t0 (backoff ss) (trace s))
    (fun _ s' => exists b, sched_inv t0 b (trace s'))).
  clear. intros ss s H. rewrite poll_iter_run.
  destruct (is_terminal (data ss)); [now exists (backoff ss) |].
  destruct (MAX_POLL_MINUTES * 60 <=? now s - started_at ss)%N.
  - destruct (mark_timeout (data ss)); exists (backoff ss); sched.
  - cbv zeta.
    destruct (outcome (scan_reply w (calls s))) as [d | e];
      [ destruct (is_limit_error d) as [[|] | e];
        [ destruct (outcome (scan_reply w (S (calls s)))) |..] |];
      simpl data; simpl backoff;
      repeat split;
      try (exists (next_backoff (backoff ss)); now sched);
      try (exists (backoff ss); now sched); sched.
Qed.

Lemma run_session_sched host (w : env) t0 fuel s :
  sched_inv t0 BACKOFF_START (trace s) ->
  exists b, sched_inv t0 b (trace (snd (run_session fuel host w s))).
Proof.
  intros H. rewrite run_session_unfold, submit_phase_run. cbv zeta.
  assert (H1 : sched_inv t0 BACKOFF_START (trace (after_call host w (at_check s))))
    by sched.
  destruct (outcome (scan_reply w (calls s))) as [d | e];
    [| now exists BACKOFF_START].
  destruct (is_limit_error d) as [[|] | e]; try (now exists BACKOFF_START).
  - pose proof (retry_loop_sched host w t0 fuel
                  (mkSession d BACKOFF_START (now s) O) _ H1) as R.
    destruct (retry_loop fuel host _ w _) as [[ss' | e |] s']; try exact R.
    now apply poll_loop_sched.
  - now apply poll_loop_sched.
Qed.

Lemma nth_wait_mono i j : i <= j -> (nth_wait i <= nth_wait j)%N.
Proof.
  intros H. unfold nth_wait.
  assert (2 ^ N.of_nat i <= 2 ^ N.of_nat j)%N by (apply N.pow_le_mono_r; lia).
  unfold BACKOFF_START, BACKOFF_MAX. lia.
Qed.

Lemma nth_wait_capped i : (nth_wait i <= BACKOFF_MAX)%N.
Proof. unfold nth_wait. lia. Qed.

Lemma wait_before_call_retry_events host rest N :
  forall b prev,
    wait_before_call (retry_events host b (S N) ++ rest) prev (S N) =
    Some (N.min (escalate N b) BACKOFF_MAX).
Proof.
  induction N as [| N IH]; intros b prev; [reflexivity |].
  change (retry_events host b (S (S N)) ++ rest)%list
    with (EvSleep BackoffWait (N.min b BACKOFF_MAX) :: EvNewScan host ::
          (retry_events host (next_backoff b) (S N) ++ rest))%list.
  change (wait_before_call (_ :: _ :: ?t) prev (S (S N)))
    with (wait_before_call t None (S N)).
  apply IH.
Qed.

(** Every loop only adds to the trace. *)
Lemma retry_loop_extends host (w : env) fuel ss s :
  exists tr, trace (snd (retry_loop fuel host ss w s)) = (trace s ++ tr)%list.
Proof.
  apply (retry_loop_rule host w
    (fun _ s1 => exists tr, trace s1 = (trace s ++ tr)%list)
    (fun _ s1 => exists tr, trace s1 = (trace s ++ tr)%list));
    [| exists []; now rewrite app_nil_r].
  clear. intros ss s1 (tr & H). rewrite retry_iter_run.
  destruct (outcome (scan_reply w (calls s1))) as [d | e];
    [ destruct (is_limit_error d) as [[|] | e] |]; simpl negb; cbv iota;
    repeat split;
    rewrite trace_after_call, trace_at_backoff, H, <- !app_assoc; eauto.
Qed.

Lemma poll_loop_extends host (w : env) fuel ss s :
  exists tr, trace (snd (poll_loop fuel host ss w s)) = (trace s ++ tr)%list.
Proof.
  apply (poll_loop_rule host w
    (fun _ s1 => exists tr, trace s1 = (trace s ++ tr)%list)
    (fun _ s1 => exists tr, trace s1 = (trace s ++ tr)%list));
    [| exists []; now rewrite app_nil_r].
  clear. intros ss s1 (tr & H). rewrite poll_iter_run.
  destruct (is_terminal (data ss)); [eauto |].
  destruct (MAX_POLL_MINUTES * 60 <=? now s1 - started_at ss)%N.
  - destruct (mark_timeout (data ss));
      rewrite trace_at_check, H, <- !app_assoc; eauto.
  - cbv zeta.
    destruct (outcome (scan_reply w (calls s1))) as [d | e];
      [ destruct (is_limit_error d) as [[|] | e];
        [ destruct (outcome (scan_reply w (S (calls s1)))) |..] |];
      repeat split;
      rewrite ?trace_after_call, ?trace_at_backoff, ?trace_after_call,
              ?trace_at_poll_sleep, ?trace_at_check, H, <- !app_assoc; eauto.
Qed.

(** [K] further quota-exceeded replies make the retry loop run at least
    [K + 1] passes. *)
Lemma retry_loop_prefix host (w : env) K :
  forall fuel ss s,
    K <= fuel ->
    (forall i, i < K -> reports_limit (outcome (scan_reply w (calls s + i))) = true) ->
    exists rest,
      trace (snd (retry_loop fuel host ss w s)) =
      (trace s ++ retry_events host (backoff ss) (S K) ++ rest)%list.
Proof.
  induction K as [| K IH]; intros fuel ss s Hfuel Hlim.
  - rewrite retry_loop_unfold, retry_iter_run.
    set (s1 := after_call host w (at_backoff (backoff ss) s)).
    assert (H1 : trace s1 = (trace s ++ retry_events host (backoff ss) 1)%list)
      by (unfold s1; rewrite trace_after_call, trace_at_backoff, <- app_assoc;
          reflexivity).
    assert (Hnil : exists rest, trace s1 =
              (trace s ++ retry_events host (backoff ss) 1 ++ rest)%list)
      by (exists []; now rewrite app_nil_r).
    destruct (outcome (scan_reply w (calls s))) as [d | e]; [| exact Hnil].
    destruct (is_limit_error d) as [[|] | e]; try exact Hnil.
    simpl negb. cbv iota. destruct fuel as [| fuel]; [exact Hnil |].
    destruct (retry_loop_extends host w fuel
                (mkSession d (next_backoff (backoff ss)) (started_at ss) (attempt ss))
                s1) as (tr & Htr).
    exists tr. rewrite Htr, H1, <- app_assoc. reflexivity.
  - destruct fuel as [| fuel]; [lia |].
    rewrite retry_loop_unfold, retry_iter_run.
    pose proof (Hlim 0 ltac:(lia)) as H0. rewrite Nat.add_0_r in H0.
    unfold reports_limit in H0.
    destruct (outcome (scan_reply w (calls s))) as [d | e]; [| discriminate].
    destruct (is_limit_error d) as [[|] | e]; try discriminate.
    simpl negb. cbv iota.
    set (s1 := after_call host w (at_backoff (backoff ss) s)).
    set (ss1 := mkSession d (next_backoff (backoff ss)) (started_at ss) (attempt ss)).
    destruct (IH fuel ss1 s1) as (rest & Hrest).
    + lia.
    + intros i Hi. change (calls s1) with (S (calls s)).
      replace (S (calls s) + i) with (calls s + S i) by lia. apply Hlim. lia.
    + exists rest. rewrite Hrest. unfold s1.
      rewrite trace_after_call, trace_at_backoff, <- !app_assoc. reflexivity.
Qed.

(** C1, as amended: in every call of [scan_until_ready], from whatever
    state earlier sessions left behind, the backoff waits of the session
    follow the doubling schedule from its start: the k-th wait (k = 0, 1,
    ...) lasts min(60 * 2^k, 600) seconds, whether it was slept in the
    submission phase or in the middle of polling, so no response resets the
    interval.  In particular, after [N >= 1] consecutive quota-exceeded
    replies the wait slept before attempt [N + 1] is min(60 * 2^(N-1), 600).
    The waits are non-decreasing and never exceed the ceiling. *)
Theorem backoff_follows_schedule fuel host (w : env) s :
  (exists tr,
     trace (snd (scan_until_ready fuel host w s)) = (trace s ++ tr)%list /\
     backoff_waits tr = schedule (List.length (backoff_waits tr))) /\
  (forall N,
     1 <= N -> N <= fuel ->
     cache_hit (outcome (cache_reply w host)) = false ->
     (forall i, i < N -> reports_limit (outcome (scan_reply w (calls s + i))) = true) ->
     exists tr,
       trace (snd (scan_until_ready fuel host w s)) = (trace s ++ tr)%list /\
       wait_before_call tr None (N + 1) = Some (nth_wait (N - 1))) /\
  (forall i j, i <= j -> (nth_wait i <= nth_wait j <= BACKOFF_MAX)%N).
Proof.
  set (s' := snd (scan_until_ready fuel host w s)). split; [| split].
  - assert (H : exists b, sched_inv (trace s) b (trace s')).
    { subst s'. unfold scan_until_ready.
      rewrite (bind_Ret _ _ _ _ _ _ (try_resultsFromCache host w s)).
      assert (H1 : sched_inv (trace s) BACKOFF_START (trace (after_cache host w s))).
      { pose proof (sched_inv_start (trace s)). sched. }
      destruct (outcome (cache_reply w host)) as [cached | e].
      - destruct (cache_hit (Ok cached)).
        + now exists BACKOFF_START.
        + now apply run_session_sched.
      - now apply run_session_sched. }
    destruct H as (b & tr & Htr & Hs & _). eauto.
  - intros N HN Hfuel Hmiss Hlim. subst s'.
    rewrite (scan_until_ready_miss _ _ _ _ Hmiss).
    rewrite run_session_unfold, submit_phase_run. cbv zeta.
    change (calls (after_cache host w s)) with (calls s).
    pose proof (Hlim 0 ltac:(lia)) as H0. rewrite Nat.add_0_r in H0.
    unfold reports_limit in H0.
    destruct (outcome (scan_reply w (calls s))) as [d | e]; [| discriminate].
    destruct (is_limit_error d) as [[|] | e]; try discriminate.
    destruct N as [| K]; [lia |].
    set (s0 := after_cache host w s).
    set (s1 := after_call host w (at_check s0)).
    set (ss := mkSession d BACKOFF_START (now s0) O).
    destruct (retry_loop_prefix host w K fuel ss s1) as (rest & Hrest).
    + lia.
    + intros i Hi. change (calls s1) with (S (calls s)).
      replace (S (calls s) + i) with (calls s + S i) by lia. apply Hlim. lia.
    + assert (Hpre : forall tr2,
                wait_before_call
                  ([EvCache host; EvClock (now s0); EvNewScan host] ++
                   retry_events host BACKOFF_START (S K) ++ rest ++ tr2) None (S K + 1)
                = Some (nth_wait (S K - 1))).
      { intros tr2. replace (S K + 1) with (S (S K)) by lia.
        replace (S K - 1) with K by lia.
        change (wait_before_call ([_; _; _] ++ ?t) None (S (S K)))
          with (wait_before_call t None (S K)).
        rewrite wait_before_call_retry_events. f_equal. apply escalate_wait. }
      assert (Ht1 : trace s1 =
                (trace s ++ [EvCache host; EvClock (now s0); EvNewScan host])%list).
      { unfold s1, s0. rewrite trace_after_call, trace_at_check, trace_after_cache.
        rewrite <- !app_assoc. reflexivity. }
      destruct (retry_loop fuel host ss w s1) as [[ss' | e |] s2] eqn:E;
        simpl snd in Hrest.
      * destruct (poll_loop_extends host w fuel ss' s2) as (tr2 & Htr2).
        eexists. split; [| apply (Hpre tr2)].
        rewrite Htr2, Hrest, Ht1, <- !app_assoc. reflexivity.
      * eexists. split; [| apply (Hpre [])].
        simpl snd. rewrite Hrest, Ht1, app_nil_r, <- !app_assoc. reflexivity.
      * eexists. split; [| apply (Hpre [])].
        simpl snd. rewrite Hrest, Ht1, app_nil_r, <- !app_assoc. reflexivity.
  - intros i j Hij. split; [now apply nth_wait_mono | apply nth_wait_capped].
Qed.


(* ================================================================== *)
(** ** Failures of remote calls, in any world *)


















(* ================================================================== *)
(** ** Termination *)

Lemma dict_get_set_same k v d : dict_get k (dict_set k v d) = Some v.
Proof.
  induction d as [| [k' v'] d IH]; simpl.
  - now rewrite String.eqb_refl.
  - destruct (String.eqb k k') eqn:E; simpl; rewrite E; [reflexivity | exact IH].
Qed.

Lemma dict_get_set_other k k' v d :
  k <> k' -> dict_get k (dict_set k' v d) = dict_get k d.
Proof.
  intros Hne. induction d as [| [k1 v1] d IH]; simpl.
  - apply String.eqb_neq in Hne. now rewrite Hne.
  - destruct (String.eqb k' k1) eqn:E; simpl.
    + apply String.eqb_eq in E. subst k1.
      apply String.eqb_neq in Hne. now rewrite Hne.
    + destruct (String.eqb k k1); [reflexivity | exact IH].
Qed.

Lemma mark_timeout_timed_out d0 d : mark_timeout d0 = Ok d -> timed_out d = true.
Proof.
  unfold mark_timeout, timed_out. intros H.
  destruct (dict_get "warnings" d0) as [[| | | | | ws |] |];
    try discriminate; injection H as <-; rewrite dict_get_set_same.
  - rewrite last_last. reflexivity.
  - reflexivity.
Qed.

Lemma well_shaped_pollable d : well_shaped d = true -> pollable d.
Proof. unfold well_shaped. intros H. apply andb_prop in H. right. tauto. Qed.

Lemma error_result_pollable host what e : pollable (error_result host what e).
Proof. left. reflexivity. Qed.

Ltac clock :=
  cbn [now calls started_at data backoff attempt after_call after_cache
       at_backoff at_poll_sleep at_check advance log count_call] in *;
  unfold MAX_POLL_MINUTES, POLL_WAIT in *; lia.

Section Shaped.

Variable w : env.
Hypothesis Hshape : forall k d, outcome (scan_reply w k) = Ok d -> well_shaped d = true.

Lemma shaped_limit k d :
  outcome (scan_reply w k) = Ok d -> exists b, is_limit_error d = Ok b.
Proof.
  intros H. apply Hshape in H. unfold well_shaped in H.
  destruct (is_limit_error d) as [b | e]; [eauto | discriminate].
Qed.

(** The poll loop returns within [n] loop-backs when [30 * n] more seconds
    suffice to reach the ceiling. *)
Lemma poll_loop_terminates host n :
  forall fuel ss s,
    n <= fuel ->
    (started_at ss <= now s)%N ->
    (MAX_POLL_MINUTES * 60 <= now s - started_at ss + POLL_WAIT * N.of_nat n)%N ->
    pollable (data ss) ->
    exists d s',
      poll_loop fuel host ss w s = (Ret d, s') /\
      (is_terminal d = true \/ timed_out d = true).
Proof.
  induction n as [| n IH]; intros fuel ss s Hfuel Hstart Hleft Hdata;
    rewrite poll_loop_unfold, poll_iter_run.
  - destruct (is_terminal (data ss)) eqn:Et; [eauto |].
    replace (MAX_POLL_MINUTES * 60 <=? now s - started_at ss)%N with true
      by (symmetry; apply N.leb_le; lia).
    destruct Hdata as [Hd | Hd]; [congruence |].
    destruct (mark_timeout (data ss)) as [d |] eqn:Em; [| discriminate].
    exists d, (at_check s). split; [reflexivity |].
    right. apply (mark_timeout_timed_out _ _ Em).
  - destruct (is_terminal (data ss)) eqn:Et; [eauto |].
    destruct (MAX_POLL_MINUTES * 60 <=? now s - started_at ss)%N.
    + destruct Hdata as [Hd | Hd]; [congruence |].
      destruct (mark_timeout (data ss)) as [d |] eqn:Em; [| discriminate].
      exists d, (at_check s). split; [reflexivity |].
      right. apply (mark_timeout_timed_out _ _ Em).
    + cbv zeta. destruct fuel as [| fuel]; [lia |].
      rewrite Nat2N.inj_succ in Hleft.
      destruct (outcome (scan_reply w (calls s))) as [d | e] eqn:E1;
        [| eexists _, _; split; [reflexivity | now left]].
      destruct (shaped_limit _ _ E1) as ([|] & ->).
      * destruct (outcome (scan_reply w (S (calls s)))) as [d' | e'] eqn:E2;
          [| eexists _, _; split; [reflexivity | now left]].
        apply IH; [lia | clock | clock |].
        apply well_shaped_pollable, (Hshape _ _ E2).
      * apply IH; [lia | clock | clock |].
        apply well_shaped_pollable, (Hshape _ _ E1).
Qed.

(** The retry loop returns as soon as a reply resolves. *)
Lemma retry_loop_terminates host K :
  forall fuel ss s,
    K <= fuel ->
    resolves (outcome (scan_reply w (calls s + K))) = true ->
    exists ss' s',
      retry_loop fuel host ss w s = (Ret ss', s') /\
      started_at ss' = started_at ss /\
      (now s <= now s')%N /\
      pollable (data ss').
Proof.
  induction K as [| K IH]; intros fuel ss s Hfuel Hres;
    rewrite retry_loop_unfold, retry_iter_run; cbv zeta.
  - rewrite Nat.add_0_r in Hres. unfold resolves in Hres.
    destruct (outcome (scan_reply w (calls s))) as [d | e] eqn:E1.
    + destruct (is_limit_error d) as [[|] | e]; try discriminate.
      eexists _, _. split; [reflexivity |]. simpl.
      repeat split; try lia. apply well_shaped_pollable, (Hshape _ _ E1).
    + eexists _, _. split; [reflexivity |]. simpl.
      repeat split; try lia. apply error_result_pollable.
  - destruct (outcome (scan_reply w (calls s))) as [d | e] eqn:E1.
    + destruct (shaped_limit _ _ E1) as ([|] & ->); simpl negb; cbv iota.
      * destruct fuel as [| fuel]; [lia |].
        destruct (IH fuel
                    (mkSession d (next_backoff (backoff ss)) (started_at ss) (attempt ss))
                    (after_call host w (at_backoff (backoff ss) s)))
          as (ss' & s' & Hrun & Hst & Hnow & Hp).
        -- lia.
        -- change (calls (after_call _ _ _)) with (S (calls s)).
           replace (S (calls s) + K) with (calls s + S K) by lia. exact Hres.
        -- exists ss', s'. split; [exact Hrun |]. simpl in Hnow.
           repeat split; [exact Hst | lia | exact Hp].
      * eexists _, _. split; [reflexivity |]. simpl.
        repeat split; try lia. apply well_shaped_pollable, (Hshape _ _ E1).
    + eexists _, _. split; [reflexivity |]. simpl.
      repeat split; try lia. apply error_result_pollable.
Qed.

(** The submission phase ends once a reply resolves. *)
Lemma submit_phase_terminates host K fuel s :
  K <= fuel ->
  resolves (outcome (scan_reply w (calls s + K))) = true ->
  exists x s',
    submit_phase fuel host w s = (Ret x, s') /\
    match x with
    | inl d => is_terminal d = true
    | inr ss => started_at ss = now s /\ (now s <= now s')%N /\ pollable (data ss)
    end.
Proof.
  intros Hfuel Hres. rewrite submit_phase_run. cbv zeta.
  destruct (outcome (scan_reply w (calls s))) as [d | e] eqn:E1;
    [| eexists _, _; split; [reflexivity | reflexivity]].
  destruct (shaped_limit _ _ E1) as ([|] & Hlim); rewrite Hlim.
  - destruct K as [| K].
    { rewrite Nat.add_0_r, E1 in Hres. unfold resolves in Hres.
      rewrite Hlim in Hres. discriminate. }
    destruct (retry_loop_terminates host K fuel
                (mkSession d BACKOFF_START (now s) O)
                (after_call host w (at_check s)))
      as (ss' & s' & Hrun & Hst & Hnow & Hp).
    + lia.
    + change (calls (after_call _ _ _)) with (S (calls s)).
      replace (S (calls s) + K) with (calls s + S K) by lia. exact Hres.
    + rewrite Hrun. exists (inr ss'), s'. split; [reflexivity |].
      simpl in Hnow, Hst. repeat split; [exact Hst | lia | exact Hp].
  - eexists _, _. split; [reflexivity |]. simpl.
    repeat split; try lia. apply well_shaped_pollable, (Hshape _ _ E1).
Qed.

Lemma run_session_terminates host K fuel s :
  K + 40 <= fuel ->
  resolves (outcome (scan_reply w (calls s + K))) = true ->
  exists d s',
    run_session fuel host w s = (Ret d, s') /\
    (is_terminal d = true \/ timed_out d = true).
Proof.
  intros Hfuel Hres. rewrite run_session_unfold.
  destruct (submit_phase_terminates host K fuel s ltac:(lia) Hres)
    as ([d | ss] & s' & Hrun & Hx); rewrite Hrun.
  - eauto.
  - destruct Hx as (Hst & Hnow & Hp).
    apply (poll_loop_terminates host 40); try assumption; try lia.
    unfold MAX_POLL_MINUTES, POLL_WAIT. lia.
Qed.

End Shaped.

(** While every reply reports quota-exceeded the retry loop never leaves. *)
Lemma retry_loop_forever host (w : env) :
  (forall k, reports_limit (outcome (scan_reply w k)) = true) ->
  forall fuel ss s, fst (retry_loop fuel host ss w s) = Diverge.
Proof.
  intros Hall. induction fuel as [| fuel IH]; intros ss s;
    rewrite retry_loop_unfold, retry_iter_run; cbv zeta;
    specialize (Hall (calls s)); unfold reports_limit in Hall;
    destruct (outcome (scan_reply w (calls s))) as [d | e]; try discriminate;
    destruct (is_limit_error d) as [[|] | e]; try discriminate;
    simpl negb; cbv iota; [reflexivity | apply IH].
Qed.

Lemma scan_until_ready_forever host (w : env) :
  cache_hit (outcome (cache_reply w host)) = false ->
  (forall k, reports_limit (outcome (scan_reply w k)) = true) ->
  forall fuel s, fst (scan_until_ready fuel host w s) = Diverge.
Proof.
  intros Hmiss Hall fuel s.
  rewrite (scan_until_ready_miss _ _ _ _ Hmiss), run_session_unfold, submit_phase_run.
  cbv zeta. pose proof (Hall (calls (after_cache host w s))) as H.
  unfold reports_limit in H.
  destruct (outcome (scan_reply w (calls (after_cache host w s)))) as [d | e];
    try discriminate.
  destruct (is_limit_error d) as [[|] | e]; try discriminate.
  pose proof (retry_loop_forever host w Hall fuel
                (mkSession d BACKOFF_START (now (after_cache host w s)) O)
                (after_call host w (at_check (after_cache host w s)))) as R.
  destruct (retry_loop fuel host _ w _) as [[ss' | e |] s']; try discriminate.
  reflexivity.
Qed.

(** Outside the well-shaped responses the classification itself raises:
    [is_limit_error] at line 155 is not inside any [try]. *)
Lemma malformed_errors_escape fuel :
  fst (scan_until_ready fuel "www.example.com" malformed fresh) =
  Raise "'int' object has no attribute 'get'".
Proof. destruct fuel; reflexivity. Qed.

(** C2, as amended: a session terminates once the submission phase gets a
    reply that is not quota-exceeded (a response or a transport failure):
    given well-shaped responses, [scan_until_ready] then returns a result
    that is terminal (READY or ERROR, the synthetic ERROR included) or
    carries the timeout warning; the retry loop of the submission phase has
    no ceiling of its own. *)
Theorem session_terminates host (w : env) s K fuel :
  (forall k d, outcome (scan_reply w k) = Ok d -> well_shaped d = true) ->
  resolves (outcome (scan_reply w (calls s + K))) = true ->
  K + 40 <= fuel ->
  exists d s',
    scan_until_ready fuel host w s = (Ret d, s') /\
    (is_terminal d = true \/ timed_out d = true).
Proof.
  intros Hshape Hres Hfuel. unfold scan_until_ready.
  rewrite (bind_Ret _ _ _ _ _ _ (try_resultsFromCache host w s)).
  assert (Hrun := run_session_terminates w Hshape host K fuel
                    (after_cache host w s) Hfuel Hres).
  destruct (outcome (cache_reply w host)) as [cached | e]; [| exact Hrun].
  destruct (cache_hit (Ok cached)) eqn:Eh; [| exact Hrun].
  exists cached, (after_cache host w s). split; [reflexivity |].
  left. simpl in Eh. apply andb_prop in Eh. unfold is_terminal.
  now rewrite (proj2 Eh).
Qed.

(* ================================================================== *)
(** ** Reaching the polling ceiling *)

Lemma mark_timeout_fields d0 d :
  mark_timeout d0 = Ok d ->
  (forall k, k <> "warnings" -> dict_get k d = dict_get k d0) /\
  dict_get "warnings" d = Some (JList (warnings_of d0 ++ [JStr timeout_warning])).
Proof.
  unfold mark_timeout, warnings_of. intros H.
  destruct (dict_get "warnings" d0) as [[| | | | | ws |] |];
    try discriminate; injection H as <-;
    (split; [intros k Hk; now apply dict_get_set_other
            | apply dict_get_set_same]).
Qed.

Lemma early_app t0 t1 t2 : early t0 t1 -> early t0 t2 -> early t0 (t1 ++ t2).
Proof.
  intros H1 H2 t Hin. apply in_app_or in Hin. destruct Hin; auto.
Qed.

Lemma early_nil t0 : early t0 [].
Proof. intros t []. Qed.

Lemma early_quiet t0 e tr :
  (forall t, e <> EvClock t) -> early t0 tr -> early t0 (e :: tr).
Proof.
  intros He H t [Heq | Hin]; [now apply He in Heq | auto].
Qed.

Lemma early_clock t0 t tr :
  (t - t0 < MAX_POLL_MINUTES * 60)%N -> early t0 tr -> early t0 (EvClock t :: tr).
Proof.
  intros Ht H t' [Heq | Hin]; [injection Heq as <-; exact Ht | auto].
Qed.

Section NeverTerminal.

Variable w : env.
Variable host : string.
Variable c0 : nat.
Variable t0 : N.
Variable pre : list event.

Hypothesis Hall :
  forall k, exists d,
    outcome (scan_reply w k) = Ok d /\ is_terminal d = false /\ well_shaped d = true.

Lemma reply_shape k d :
  outcome (scan_reply w k) = Ok d ->
  is_terminal d = false /\ exists b, is_limit_error d = Ok b.
Proof.
  intros H. destruct (Hall k) as (d' & Hd' & Ht & Hw).
  rewrite H in Hd'. injection Hd' as <-. split; [exact Ht |].
  unfold well_shaped in Hw. destruct (is_limit_error d); [eauto | discriminate].
Qed.

Lemma retry_loop_polling fuel ss s :
  polling w c0 t0 pre ss s ->
  forall ss', fst (retry_loop fuel host ss w s) = Ret ss' ->
              polling w c0 t0 pre ss' (snd (retry_loop fuel host ss w s)).
Proof.
  apply (retry_loop_rule host w (polling w c0 t0 pre)
           (fun r s' => forall ss', r = Ret ss' -> polling w c0 t0 pre ss' s')).
  clear ss s. intros ss s (Hc & Hd & Hst & mid & Htr & He).
  rewrite retry_iter_run. cbv zeta.
  destruct (Hall (calls s)) as (d & Hd1 & _). rewrite Hd1.
  destruct (reply_shape _ _ Hd1) as (_ & b & ->).
  assert (Hp : polling w c0 t0 pre (mkSession d (next_backoff (backoff ss)) (started_at ss) (attempt ss))
                       (after_call host w (at_backoff (backoff ss) s))).
  { repeat split; [simpl; lia | exact Hd1 | exact Hst |].
    eexists. split.
    - rewrite trace_after_call, trace_at_backoff, Htr, <- !app_assoc. reflexivity.
    - apply early_app; [exact He |].
      repeat (apply early_quiet; [intros t; discriminate |]). apply early_nil. }
  destruct b; simpl negb; cbv iota.
  - split; [exact Hp | discriminate].
  - intros ss' Heq. injection Heq as <-. exact Hp.
Qed.

Lemma poll_loop_gave_up fuel ss s :
  polling w c0 t0 pre ss s ->
  forall d, fst (poll_loop fuel host ss w s) = Ret d ->
            gave_up w c0 t0 pre d (snd (poll_loop fuel host ss w s)).
Proof.
  apply (poll_loop_rule host w (polling w c0 t0 pre)
           (fun r s' => forall d, r = Ret d -> gave_up w c0 t0 pre d s')).
  clear ss s. intros ss s (Hc & Hd & Hst & mid & Htr & He).
  rewrite poll_iter_run.
  destruct (reply_shape _ _ Hd) as (-> & _).
  destruct (MAX_POLL_MINUTES * 60 <=? now s - started_at ss)%N eqn:El.
  - destruct (mark_timeout (data ss)) as [d |] eqn:Em; [| discriminate].
    intros d' Heq. injection Heq as <-.
    exists (data ss), mid. apply N.leb_le in El. rewrite Hst in El.
    repeat split; try assumption.
    rewrite trace_at_check, Htr, <- app_assoc. reflexivity.
  - cbv zeta. apply N.leb_gt in El. rewrite Hst in El.
    destruct (Hall (calls s)) as (d & Hd1 & _). rewrite Hd1.
    destruct (reply_shape _ _ Hd1) as (_ & b & ->).
    destruct b.
    + destruct (Hall (S (calls s))) as (d' & Hd2 & _). rewrite Hd2.
      split; [| discriminate].
      repeat split; [simpl; lia | exact Hd2 | exact Hst |].
      eexists. split.
      * rewrite trace_after_call, trace_at_backoff, trace_after_call,
                trace_at_poll_sleep, trace_at_check, Htr, <- !app_assoc.
        reflexivity.
      * apply early_app; [exact He |].
        apply early_clock; [exact El |].
        repeat (apply early_quiet; [intros t; discriminate |]). apply early_nil.
    + split; [| discriminate].
      repeat split; [simpl; lia | exact Hd1 | exact Hst |].
      eexists. split.
      * rewrite trace_after_call, trace_at_poll_sleep, trace_at_check, Htr,
                <- !app_assoc.
        reflexivity.
      * apply early_app; [exact He |].
        apply early_clock; [exact El |].
        repeat (apply early_quiet; [intros t; discriminate |]). apply early_nil.
Qed.

Lemma run_session_gave_up fuel s d :
  calls s = c0 -> now s = t0 -> (trace s ++ [EvClock t0])%list = pre ->
  fst (run_session fuel host w s) = Ret d ->
  gave_up w c0 t0 pre d (snd (run_session fuel host w s)).
Proof.
  intros Hc Hn Hpre. rewrite run_session_unfold, submit_phase_run. cbv zeta.
  destruct (Hall (calls s)) as (d1 & Hd1 & _). rewrite Hd1.
  destruct (reply_shape _ _ Hd1) as (_ & b & ->).
  assert (Hp : polling w c0 t0 pre (mkSession d1 BACKOFF_START (now s) O)
                       (after_call host w (at_check s))).
  { repeat split; [simpl; lia | exact Hd1 | exact Hn |].
    exists [EvNewScan host]. split.
    - rewrite trace_after_call, trace_at_check, Hn, <- Hpre. reflexivity.
    - apply early_quiet; [intros t; discriminate | apply early_nil]. }
  destruct b.
  - pose proof (retry_loop_polling fuel _ _ Hp) as R.
    destruct (retry_loop fuel host _ w _) as [[ss' | e |] s']; simpl;
      try discriminate.
    apply poll_loop_gave_up. apply R. reflexivity.
  - now apply poll_loop_gave_up.
Qed.

End NeverTerminal.

(** C3, as amended: when the cache lookup is not READY and every response
    is well shaped and non-terminal, [scan_until_ready] (once the
    submission phase got a response that is not quota-exceeded) returns at
    the first clock reading of the poll loop at which 20 minutes or more
    have passed since the session start, which can be later than 20
    minutes; the result is the newest response with the timeout warning
    appended to its warnings and every other field, the status included,
    unchanged. *)
Theorem gives_up_at_first_late_check host (w : env) s K fuel :
  cache_hit (outcome (cache_reply w host)) = false ->
  (forall k, exists d,
     outcome (scan_reply w k) = Ok d /\ is_terminal d = false /\ well_shaped d = true) ->
  resolves (outcome (scan_reply w (calls s + K))) = true ->
  K + 40 <= fuel ->
  exists d0 d s' t0 mid,
    scan_until_ready fuel host w s = (Ret d, s') /\
    calls s < calls s' /\
    outcome (scan_reply w (pred (calls s'))) = Ok d0 /\
    (forall k, k <> "warnings" -> dict_get k d = dict_get k d0) /\
    dict_get "status" d = dict_get "status" d0 /\
    dict_get "warnings" d = Some (JList (warnings_of d0 ++ [JStr timeout_warning])) /\
    trace s' = (trace s ++ [EvCache host; EvClock t0] ++ mid ++ [EvClock (now s')])%list /\
    early t0 mid /\
    (MAX_POLL_MINUTES * 60 <= now s' - t0)%N.
Proof.
  intros Hmiss Hall Hres Hfuel.
  assert (Hshape : forall k d, outcome (scan_reply w k) = Ok d -> well_shaped d = true).
  { intros k d Hd. destruct (Hall k) as (d' & Hd' & _ & Hw).
    rewrite Hd in Hd'. injection Hd' as <-. exact Hw. }
  rewrite (scan_until_ready_miss _ _ _ _ Hmiss).
  set (s1 := after_cache host w s).
  destruct (run_session_terminates w Hshape host K fuel s1 Hfuel Hres)
    as (d & s' & Hrun & _).
  pose proof (run_session_gave_up w host (calls s) (now s1)
                (trace s ++ [EvCache host; EvClock (now s1)])%list Hall fuel s1 d
                eq_refl eq_refl) as G.
  rewrite Hrun in G. simpl fst in G. simpl snd in G.
  destruct G as (d0 & mid & Hc & Hd0 & Hm & Htr & He & Hlate).
  - unfold s1. rewrite trace_after_cache, <- app_assoc. reflexivity.
  - reflexivity.
  - destruct (mark_timeout_fields _ _ Hm) as (Hf & Hw).
    exists d0, d, s', (now s1), mid. rewrite Hrun.
    repeat split; try assumption.
    + apply Hf. discriminate.
    + rewrite Htr, <- !app_assoc. reflexivity.
Qed.

(* ================================================================== *)
(** ** Cache hit and ready on the first call *)

(** C8: when the cache lookup returns a result whose status is READY,
    [scan_until_ready] returns that result at once: the only effect is the
    cache lookup itself, so no [ssl.newScan] call is made, the clock is
    never read and nothing sleeps. *)
Theorem cached_ready_returns_at_once fuel host (w : env) s cached :
  outcome (cache_reply w host) = Ok cached ->
  status_is cached "READY" = true ->
  exists s',
    scan_until_ready fuel host w s = (Ret cached, s') /\
    calls s' = calls s /\
    trace s' = (trace s ++ [EvCache host])%list /\
    remote_calls [EvCache host] = 0.
Proof.
  intros Hc Hr. exists (after_cache host w s).
  repeat split.
  unfold scan_until_ready.
  rewrite (bind_Ret _ _ _ _ _ _ (try_resultsFromCache host w s)).
  rewrite Hc. unfold cache_hit. rewrite Hr, (status_is_nonempty _ _ Hr).
  reflexivity.
Qed.

(** C9: when the cache lookup is not READY and the first [ssl.newScan]
    call returns a response with status READY and no quota error,
    [scan_until_ready] returns that response after exactly one
    [ssl.newScan] call and without any sleep. *)
Theorem ready_on_first_call fuel host (w : env) s d :
  cache_hit (outcome (cache_reply w host)) = false ->
  outcome (scan_reply w (calls s)) = Ok d ->
  is_limit_error d = Ok false ->
  status_is d "READY" = true ->
  exists s',
    scan_until_ready fuel host w s = (Ret d, s') /\
    calls s' = S (calls s) /\
    trace s' = (trace s ++ [EvCache host] ++
                [EvClock (now (after_cache host w s)); EvNewScan host])%list /\
    sleeps [EvCache host; EvClock (now (after_cache host w s)); EvNewScan host] = [].
Proof.
  intros Hmiss Hd Hlim Hready.
  rewrite (scan_until_ready_miss _ _ _ _ Hmiss).
  set (s1 := after_cache host w s).
  set (s2 := log (EvClock (now s1)) s1).
  exists (after_call host w s2).
  split; [| split; [reflexivity | split; [| reflexivity]]].
  - unfold run_session, submit_phase.
    unfold bind at 1. unfold bind at 1. unfold time_time. fold s2.
    unfold bind at 1. rewrite try_newScan.
    change (calls s2) with (calls s). rewrite Hd.
    unfold bind at 1. unfold lift at 1. rewrite Hlim.
    unfold bind at 1. unfold ret at 1. unfold ret at 1.
    apply poll_loop_terminal. simpl. unfold is_terminal. now rewrite Hready.
  - simpl. now rewrite <- !app_assoc.
Qed.

(* ================================================================== *)
(** ** The summary row *)

Lemma summary_row_columns d row :
  summary_row d = Ok row -> List.length row = List.length csv_header.
Proof.
  unfold summary_row, py_bind. intros H.
  repeat match type of H with
         | match ?c with _ => _ end = _ => destruct c; try discriminate
         end.
  injection H as <-. reflexivity.
Qed.

Lemma extract_summary_columns d :
  List.length (extract_summary d) = if is_ok (summary_row d) then 15 else 14.
Proof.
  unfold extract_summary. destruct (summary_row d) eqn:E; simpl.
  - apply (summary_row_columns _ _ E).
  - reflexivity.
Qed.

(** C5: on a payload that cannot be parsed into the summary shape,
    [extract_summary] returns the host name followed by 13 placeholders:
    a row of 14 columns, one short of the 15 columns of the header. *)
Theorem degraded_row_is_one_column_short :
  summary_row v3_payload = Exc (attribute_error (JList []) "get") /\
  extract_summary v3_payload =
    JStr "www.example.com" :: repeat (JStr "N/A") 13 /\
  List.length (extract_summary v3_payload) = 14 /\
  List.length csv_header = 15.
Proof. repeat split. Qed.

(* ================================================================== *)
(** ** Quota exceeded in the middle of polling *)

(** C6: when the call made by a poll pass reports quota-exceeded, the pass
    sleeps one backoff wait, makes exactly one more call and ends: with
    whatever that call returned as the data of the next pass (or with the
    "poll failed" result when it raised), the backoff doubled, the attempt
    counter one up and the session clock untouched. *)
Theorem mid_poll_limit_one_extra_call host ss (w : env) s d1 :
  is_terminal (data ss) = false ->
  (now s - started_at ss < MAX_POLL_MINUTES * 60)%N ->
  outcome (scan_reply w (calls s)) = Ok d1 ->
  quota_exceeded d1 ->
  let wait_for := N.min (backoff ss) BACKOFF_MAX in
  let s1 := advance POLL_WAIT (log (EvSleep PollWait POLL_WAIT) (log (EvClock (now s)) s)) in
  let s2 := after_call host w s1 in
  let s3 := advance wait_for (log (EvSleep BackoffWait wait_for) s2) in
  let s4 := after_call host w s3 in
  let ss' d2 := mkSession d2 (N.min (backoff ss * 2) BACKOFF_MAX)
                          (started_at ss) (S (attempt ss)) in
  poll_iter host ss w s =
    (Ret (match outcome (scan_reply w (S (calls s))) with
          | Ok d2 => inr (ss' d2)
          | Exc e => inl (error_result host "poll failed" e)
          end), s4) /\
  calls s4 = 2 + calls s /\
  trace s4 = (trace s ++ [EvClock (now s); EvSleep PollWait POLL_WAIT; EvNewScan host;
                          EvSleep BackoffWait wait_for; EvNewScan host])%list /\
  forall fuel d2,
    outcome (scan_reply w (S (calls s))) = Ok d2 ->
    poll_loop (S fuel) host ss w s = poll_loop fuel host (ss' d2) w s4.
Proof.
  intros Hterm Hearly Hd1 Hlim wait_for s1 s2 s3 s4 ss'.
  assert (Hiter : poll_iter host ss w s =
    (Ret (match outcome (scan_reply w (S (calls s))) with
          | Ok d2 => inr (ss' d2)
          | Exc e => inl (error_result host "poll failed" e)
          end), s4)).
  { unfold poll_iter. rewrite Hterm.
    unfold bind at 1. unfold time_time.
    replace (MAX_POLL_MINUTES * 60 <=? now s - started_at ss)%N with false
      by (symmetry; apply N.leb_gt; exact Hearly).
    unfold bind at 1. unfold sleep at 1. fold s1.
    unfold bind at 1. unfold try_, repoll.
    unfold bind at 1. rewrite (newScan_Ok host w s1 d1 Hd1). fold s2.
    unfold bind at 1. unfold lift at 1. rewrite Hlim.
    unfold bind at 1. unfold sleep at 1. fold wait_for. fold s3.
    unfold bind at 1. unfold newScan, answer.
    change (scan_interrupt w (calls s3)) with (@None string).
    change (replies w) with w.
    change (calls s3) with (S (calls s)).
    destruct (outcome (scan_reply w (S (calls s)))) eqn:E2; reflexivity. }
  split; [exact Hiter |].
  split; [reflexivity |].
  split; [simpl; now rewrite <- !app_assoc |].
  intros fuel d2 Hd2. simpl. unfold bind at 1. rewrite Hiter, Hd2. reflexivity.
Qed.

(* ================================================================== *)
(** ** The host gate *)

Lemma has_https_run host port timeout (w : env) s :
  has_https host port timeout w s =
  match outcome (connect_reply w host) with
  | Ok _ => (Ret true,
             log EvClose (advance (latency (connect_reply w host))
                                  (log (EvConnect host port timeout) s)))
  | Exc _ => (Ret false,
              advance (latency (connect_reply w host))
                      (log (EvConnect host port timeout) s))
  end.
Proof.
  unfold has_https, bind, try_, create_connection, answer, sock_close, ret.
  change (connect_interrupt w host) with (@None string).
  change (replies w) with w.
  destruct (outcome (connect_reply w host)); reflexivity.
Qed.

(** C10: [has_https] returns true exactly when the connection attempt on
    the given port and timeout succeeds, closing the socket at once, and
    false, without raising, when the attempt fails; for a host for which it
    is false, the loop body of [main] writes the fixed "No HTTPS" row and
    makes no cache lookup and no [ssl.newScan] call. *)
Theorem host_gate fuel sub (w : env) s :
  (exists s1,
     has_https sub 443 4 w s = (Ret (is_ok (outcome (connect_reply w sub))), s1) /\
     trace s1 = (trace s ++ EvConnect sub 443 4 ::
                 (if is_ok (outcome (connect_reply w sub)) then [EvClose] else []))%list) /\
  (is_ok (outcome (connect_reply w sub)) = false ->
   exists s',
     process_host fuel sub w s = (Ret tt, s') /\
     csv s' = (csv s ++ [no_https_row sub])%list /\
     List.length (no_https_row sub) = List.length csv_header /\
     files s' = files s /\
     calls s' = calls s /\
     trace s' = (trace s ++ [EvConnect sub 443 4])%list).
Proof.
  split.
  - rewrite has_https_run.
    destruct (outcome (connect_reply w sub)); simpl; eexists; split;
      try reflexivity.
    simpl. now rewrite <- app_assoc.
  - intros Hup. unfold process_host. unfold bind at 1. rewrite has_https_run.
    destruct (outcome (connect_reply w sub)); [discriminate |].
    simpl. eexists. repeat split.
Qed.

(* ================================================================== *)
(** ** The host list *)

Lemma mem_In s l : mem s l = true <-> In s l.
Proof.
  unfold mem. rewrite existsb_exists. split.
  - intros (x & Hin & Heq). apply String.eqb_eq in Heq. now subst.
  - intros Hin. exists s. split; [exact Hin | apply String.eqb_refl].
Qed.

Lemma mem_false s l : mem s l = false <-> ~ In s l.
Proof.
  rewrite <- mem_In. destruct (mem s l); split; congruence.
Qed.

Lemma dedup_loop_ordered subs :
  forall seen ordered,
    dedup_loop subs seen ordered = (ordered ++ dedup_loop subs seen [])%list.
Proof.
  induction subs as [| x subs IH]; intros seen ordered; simpl.
  - now rewrite app_nil_r.
  - destruct (mem x seen); [apply IH |].
    rewrite (IH (x :: seen) (ordered ++ [x])%list), (IH (x :: seen) [x]).
    now rewrite <- app_assoc.
Qed.

Lemma dedup_loop_seen subs :
  forall s1 s2 ordered,
    (forall z, mem z s1 = mem z s2) ->
    dedup_loop subs s1 ordered = dedup_loop subs s2 ordered.
Proof.
  induction subs as [| x subs IH]; intros s1 s2 ordered H; simpl; [reflexivity |].
  rewrite <- (H x). destruct (mem x s1); [now apply IH |].
  apply IH. intros z. unfold mem in *. simpl. now rewrite H.
Qed.

Lemma dedup_loop_In subs :
  forall seen z,
    In z (dedup_loop subs seen []) <-> In z subs /\ ~ In z seen.
Proof.
  induction subs as [| x subs IH]; intros seen z; simpl; [tauto |].
  destruct (mem x seen) eqn:E.
  - rewrite IH. apply mem_In in E. split.
    + tauto.
    + intros [[-> | Hin] Hn]; tauto.
  - apply mem_false in E. rewrite dedup_loop_ordered. simpl. rewrite IH. simpl.
    split.
    + intros [-> | (Hin & Hn)]; [tauto |]. split; [tauto |]. tauto.
    + intros [[-> | Hin] Hn]; [tauto |].
      destruct (string_dec x z) as [-> | Hne]; [tauto |]. right. tauto.
Qed.

Lemma dedup_loop_NoDup subs : forall seen, NoDup (dedup_loop subs seen []).
Proof.
  induction subs as [| x subs IH]; intros seen; simpl; [constructor |].
  destruct (mem x seen); [apply IH |].
  rewrite dedup_loop_ordered. simpl. constructor; [| apply IH].
  rewrite dedup_loop_In. simpl. tauto.
Qed.

Lemma dedup_loop_filter subs x :
  forall seen,
    dedup_loop subs (x :: seen) [] =
    filter (fun y => negb (String.eqb y x)) (dedup_loop subs seen []).
Proof.
  induction subs as [| y subs IH]; intros seen; [reflexivity |].
  simpl dedup_loop at 2.
  destruct (mem y seen) eqn:E.
  - simpl. unfold mem in *. simpl. rewrite E, orb_true_r. apply IH.
  - rewrite (dedup_loop_ordered subs (y :: seen) [y]). simpl filter.
    simpl dedup_loop. unfold mem in *. simpl existsb. rewrite E, orb_false_r.
    destruct (String.eqb y x) eqn:Eyx; simpl negb; cbv iota.
    + apply String.eqb_eq in Eyx. subst y.
      symmetry. apply forallb_filter_id. apply forallb_forall.
      intros z Hz. apply dedup_loop_In in Hz. destruct Hz as (_ & Hn).
      apply negb_true_iff, String.eqb_neq. intros ->. apply Hn. now left.
    + rewrite (dedup_loop_ordered subs (y :: x :: seen) [y]). simpl. f_equal.
      rewrite <- IH. apply dedup_loop_seen.
      intros z. unfold mem. simpl.
      destruct (String.eqb z y), (String.eqb z x); reflexivity.
Qed.

Lemma collect_lines_cons line rest :
  collect_lines (line :: rest) =
  if String.eqb (py_strip line) "" || is_prefix "#" (py_strip line)
     || is_prefix "---" (py_strip line)
  then collect_lines rest
  else py_strip line :: collect_lines rest.
Proof. reflexivity. Qed.

Lemma collect_lines_In lines x :
  In x (collect_lines lines) <->
  exists line, In line lines /\ x = py_strip line /\ kept x.
Proof.
  unfold kept. induction lines as [| l lines IH].
  - simpl. split; [tauto | intros (line & [] & _)].
  - rewrite collect_lines_cons.
    destruct (String.eqb (py_strip l) "" || is_prefix "#" (py_strip l)
              || is_prefix "---" (py_strip l)) eqn:E.
    + rewrite IH. split.
      * intros (line & Hin & Hx). exists line. split; [now right | exact Hx].
      * intros (line & [-> | Hin] & -> & Hne & Hh & Hd).
        -- apply String.eqb_neq in Hne. rewrite Hne, Hh, Hd in E. discriminate.
        -- exists line. auto.
    + apply orb_false_iff in E. destruct E as (E & E3).
      apply orb_false_iff in E. destruct E as (E1 & E2).
      apply String.eqb_neq in E1.
      simpl In. rewrite IH. split.
      * intros [<- | (line & Hin & Hx)].
        -- exists l. split; [now left | auto].
        -- exists line. split; [now right | exact Hx].
      * intros (line & [-> | Hin] & -> & Hk).
        -- now left.
        -- right. exists line. auto.
Qed.

(** X1: [read_subdomains] keeps the first occurrence of every host and
    drops the later ones, in the order of the file: the result has no
    duplicates, holds the same hosts as the lines kept by the filter, and a
    kept line comes first, followed by the result for the lines after it
    without that host. *)
Theorem read_subdomains_first_seen lines line rest :
  NoDup (read_subdomains lines) /\
  (forall x, In x (read_subdomains lines) <-> In x (collect_lines lines)) /\
  read_subdomains (line :: rest) =
    (let host := py_strip line in
     if String.eqb host "" || is_prefix "#" host || is_prefix "---" host
     then read_subdomains rest
     else host :: filter (fun y => negb (String.eqb y host)) (read_subdomains rest)).
Proof.
  unfold read_subdomains. split; [apply dedup_loop_NoDup | split].
  - intros x. rewrite dedup_loop_In. simpl. tauto.
  - cbv zeta. rewrite collect_lines_cons.
    destruct (String.eqb (py_strip line) "" || is_prefix "#" (py_strip line)
              || is_prefix "---" (py_strip line)); [reflexivity |].
    cbn [dedup_loop mem existsb]. rewrite dedup_loop_ordered.
    cbn [app]. f_equal. apply dedup_loop_filter.
Qed.

(** X2: a host is returned by [read_subdomains] exactly when it is the
    stripped form of some line of the file and is neither empty, nor a
    comment (leading [#]), nor a separator (leading [---]). *)
Theorem read_subdomains_entries lines x :
  In x (read_subdomains lines) <->
  exists line, In line lines /\ x = py_strip line /\ kept x.
Proof.
  unfold read_subdomains. rewrite dedup_loop_In, collect_lines_In. simpl. tauto.
Qed.

(* ================================================================== *)
(** ** Classifying a response: [is_limit_error] *)

Lemma is_prefix_spec p s :
  is_prefix p s = true <-> exists post, s = (p ++ post)%string.
Proof.
  revert s. induction p as [| a p IH]; intros s; simpl.
  - split; [intros _; now exists s | reflexivity].
  - destruct s as [| b s].
    + split; [discriminate | intros (post & H); discriminate].
    + rewrite andb_true_iff, IH. split.
      * intros (Hab & post & ->). apply Ascii.eqb_eq in Hab. subst. now exists post.
      * intros (post & H). injection H as -> ->. split; [apply Ascii.eqb_refl | eauto].
Qed.

(** [str_in] is substring search. *)
Lemma str_in_spec needle hay :
  str_in needle hay = true <->
  exists pre post, hay = (pre ++ needle ++ post)%string.
Proof.
  induction hay as [| c hay IH].
  - simpl. rewrite orb_false_r, is_prefix_spec. split.
    + intros (post & H). now exists "", post.
    + intros (pre & post & H). destruct pre; [eauto | discriminate].
  - cbn [str_in]. rewrite orb_true_iff, is_prefix_spec, IH. split.
    + intros [(post & H) | (pre & post & H)].
      * now exists "", post.
      * exists (String c pre), post. simpl. now rewrite H.
    + intros (pre & post & H). destruct pre as [| c' pre].
      * left. now exists post.
      * right. injection H as _ H. eauto.
Qed.

(** The message test of [is_limit_error] on one entry of [errors]. *)
Lemma limit_scan_cons e rest :
  limit_scan (e :: rest) =
  match e with
  | JObj kv =>
      if str_in "Concurrent assessment limit"
                (py_str (dict_get_or "message" (JStr "") kv))
      then Ok true
      else limit_scan rest
  | _ => Exc (attribute_error e "get")
  end.
Proof. destruct e; reflexivity. Qed.

Lemma limit_scan_objects errs :
  Forall (fun e => is_dict e = true) errs ->
  exists b,
    limit_scan errs = Ok b /\
    (b = true <->
     exists kv, In (JObj kv) errs /\
                str_in "Concurrent assessment limit"
                       (py_str (dict_get_or "message" (JStr "") kv)) = true).
Proof.
  induction 1 as [| e errs He _ IH].
  - exists false. split; [reflexivity |].
    split; [discriminate | intros (kv & [] & _)].
  - rewrite limit_scan_cons. destruct e as [| | | | | | kv]; try discriminate.
    destruct (str_in _ _) eqn:E.
    + exists true. split; [reflexivity |]. split; [| reflexivity].
      intros _. exists kv. split; [now left | exact E].
    + destruct IH as (b & Hb & Hiff). exists b. split; [exact Hb |].
      rewrite Hiff. split.
      * intros (kv' & Hin & Hs). exists kv'. split; [now right | exact Hs].
      * intros (kv' & [Heq | Hin] & Hs); [| eauto].
        injection Heq as ->. congruence.
Qed.

(** X3: [is_limit_error] answers False, without raising, when [errors] is
    missing, null or empty; and when [errors] is a list of objects it
    answers, without raising, whether the message of some entry contains
    the text "Concurrent assessment limit". *)
Theorem is_limit_error_classifies resp :
  (py_truthy (dict_get_or "errors" JNull resp) = false ->
   is_limit_error resp = Ok false) /\
  (forall errs,
     dict_get "errors" resp = Some (JList errs) ->
     Forall (fun e => is_dict e = true) errs ->
     exists b,
       is_limit_error resp = Ok b /\
       (b = true <->
        exists kv pre post,
          In (JObj kv) errs /\
          py_str (dict_get_or "message" (JStr "") kv) =
            (pre ++ "Concurrent assessment limit" ++ post)%string)).
Proof.
  split.
  - intros H. unfold is_limit_error, py_or. rewrite H. reflexivity.
  - intros errs Hget Hobj. unfold is_limit_error, py_or, dict_get_or.
    rewrite Hget.
    destruct (limit_scan_objects errs Hobj) as (b & Hb & Hiff).
    exists b. split.
    + destruct errs; simpl; [| exact Hb]. simpl in Hb. exact Hb.
    + rewrite Hiff. split.
      * intros (kv & Hin & Hs). apply str_in_spec in Hs.
        destruct Hs as (pre & post & Hs). eauto.
      * intros (kv & pre & post & Hin & Hs). exists kv. split; [exact Hin |].
        apply str_in_spec. eauto.
Qed.

(** X4: [is_limit_error] looks at the entries of [errors] in order and
    stops at the first one whose message matches: entries after it are not
    inspected, while an entry that is not an object, met before any match,
    makes the function raise [AttributeError]. *)
Theorem is_limit_error_first_entry_decides resp pre e rest :
  dict_get "errors" resp = Some (JList (pre ++ e :: rest)) ->
  Forall (fun x => exists kv,
            x = JObj kv /\
            str_in "Concurrent assessment limit"
                   (py_str (dict_get_or "message" (JStr "") kv)) = false) pre ->
  is_limit_error resp =
  match e with
  | JObj kv =>
      if str_in "Concurrent assessment limit"
                (py_str (dict_get_or "message" (JStr "") kv))
      then Ok true
      else limit_scan rest
  | _ => Exc ("'" ++ py_type_name e ++ "' object has no attribute 'get'")
  end.
Proof.
  intros Hget Hpre. unfold is_limit_error, py_or, dict_get_or. rewrite Hget.
  assert (Ht : py_truthy (JList (pre ++ e :: rest)) = true)
    by (destruct pre; reflexivity).
  rewrite Ht. cbn [py_iter py_bind]. clear Hget Ht.
  induction Hpre as [| x pre (kv & -> & Hx) _ IH].
  - apply limit_scan_cons.
  - cbn [app]. rewrite limit_scan_cons, Hx. exact IH.
Qed.

(* ================================================================== *)
(** ** The summary row: further properties *)

Lemma summary_row_head d row :
  summary_row d = Ok row ->
  hd_error row = Some (dict_get_or "host" (JStr "N/A") d) /\
  nth_error row 3 = Some (dict_get_or "status" (JStr "N/A") d).
Proof.
  unfold summary_row, py_bind. intros H.
  repeat match type of H with
         | match ?c with _ => _ end = _ => destruct c; try discriminate
         end.
  injection H as <-. split; reflexivity.
Qed.

(** X5: the first column of the row [extract_summary] returns is always
    the host of the payload ("N/A" when the payload has none), whether the
    payload parsed or not; when it parsed, the fourth column is its status. *)
Theorem extract_summary_host_first d :
  hd_error (extract_summary d) = Some (dict_get_or "host" (JStr "N/A") d) /\
  (forall row, summary_row d = Ok row ->
               extract_summary d = row /\
               nth_error row 3 = Some (dict_get_or "status" (JStr "N/A") d)).
Proof.
  unfold extract_summary. split.
  - destruct (summary_row d) eqn:E; [| reflexivity].
    apply (summary_row_head _ _ E).
  - intros row E. rewrite E. split; [reflexivity |].
    apply (summary_row_head _ _ E).
Qed.

(** X6: a payload without endpoints (the key missing, null or an empty
    list), such as the synthetic ERROR results of [scan_until_ready], still
    gets a full row of 15 columns: host and status from the payload, the two
    validity columns from [pretty_ts(0)], placeholders elsewhere. *)
Theorem extract_summary_without_endpoints d :
  py_truthy (dict_get_or "endpoints" JNull d) = false ->
  extract_summary d =
    [dict_get_or "host" (JStr "N/A") d; JStr "N/A"; JStr "N/A";
     dict_get_or "status" (JStr "N/A") d; JStr "N/A";
     JStr "N/A"; JStr "N/A"; JStr "N/A";
     JStr "N/A"; JStr "N/A"; JStr (pretty_ts (JInt 0)); JStr (pretty_ts (JInt 0));
     JStr "N/A"; JStr "N/A"; JStr "N/A"].
Proof.
  intros H. unfold extract_summary, summary_row, py_or. rewrite H. reflexivity.
Qed.

(* ================================================================== *)
(** ** What a session returns, and how it paces its calls *)

Lemma poll_loop_result host (w : env) fuel ss s d s' :
  poll_loop fuel host ss w s = (Ret d, s') ->
  is_terminal d = true \/ timed_out d = true.
Proof.
  intros Hrun.
  pose proof (poll_loop_rule host w (fun _ _ => True)
    (fun r _ => forall d, r = Ret d -> is_terminal d = true \/ timed_out d = true))
    as R.
  specialize (R ltac:(
    clear; intros ss s _; rewrite poll_iter_run;
    destruct (is_terminal (data ss)) eqn:Et;
    [ intros d Hd; injection Hd as <-; now left |];
    destruct (MAX_POLL_MINUTES * 60 <=? now s - started_at ss)%N;
    [ destruct (mark_timeout (data ss)) eqn:Em; [| discriminate];
      intros d Hd; injection Hd as <-; right;
      apply (mark_timeout_timed_out _ _ Em) |];
    cbv zeta;
    destruct (outcome (scan_reply w (calls s))) as [d1 | e];
    [ destruct (is_limit_error d1) as [[|] | e];
      [ destruct (outcome (scan_reply w (S (calls s)))) |..] |];
    try (split; [exact I | discriminate]);
    intros d Hd; injection Hd as <-; now left) fuel ss s I).
  rewrite Hrun in R. apply R. reflexivity.
Qed.

(** X7: whenever [scan_until_ready] returns, the result is terminal
    (status READY or ERROR) or carries the timeout warning as its newest
    warning; this needs no assumption on the replies. *)
Theorem returned_result_is_terminal_or_timed_out fuel host (w : env) s d s' :
  scan_until_ready fuel host w s = (Ret d, s') ->
  is_terminal d = true \/ timed_out d = true.
Proof.
  unfold scan_until_ready.
  rewrite (bind_Ret _ _ _ _ _ _ (try_resultsFromCache host w s)).
  assert (Hsession : run_session fuel host w (after_cache host w s) = (Ret d, s') ->
                     is_terminal d = true \/ timed_out d = true).
  { rewrite run_session_unfold, submit_phase_run. cbv zeta.
    destruct (outcome (scan_reply w (calls (after_cache host w s)))) as [d1 | e].
    - destruct (is_limit_error d1) as [[|] | e]; try discriminate.
      + destruct (retry_loop fuel host _ w _) as [[ss' | e |] s2];
          try discriminate.
        apply poll_loop_result.
      + apply poll_loop_result.
    - intros H. injection H as <- _. now left. }
  destruct (outcome (cache_reply w host)) as [cached | e]; [| exact Hsession].
  destruct (cache_hit (Ok cached)) eqn:Eh; [| exact Hsession].
  intros H. injection H as <- _. left.
  simpl in Eh. apply andb_prop in Eh. unfold is_terminal. now rewrite (proj2 Eh).
Qed.

Lemma pace_at_log base b b' t e :
  pace_at base b t -> pace_step (Some b) e = Some b' -> pace_at base b' (t ++ [e]).
Proof.
  intros (tr & -> & Hf) He. exists (tr ++ [e])%list.
  rewrite app_assoc, fold_left_app, Hf. auto.
Qed.

Ltac pace :=
  first [ eassumption | eapply pace_at_log; [pace | reflexivity] ].

Ltac traces :=
  rewrite ?trace_after_call, ?trace_at_backoff, ?trace_after_call,
          ?trace_at_poll_sleep, ?trace_at_check, ?trace_after_cache.

Lemma retry_loop_paced host (w : env) base fuel ss s :
  (exists b, pace_at base b (trace s)) ->
  exists b, pace_at base b (trace (snd (retry_loop fuel host ss w s))).
Proof.
  apply (retry_loop_rule host w
    (fun _ s => exists b, pace_at base b (trace s))
    (fun _ s' => exists b, pace_at base b (trace s'))).
  clear. intros ss s (b & H). rewrite retry_iter_run. cbv zeta.
  assert (H1 : pace_at base false
                 (trace (after_call host w (at_backoff (backoff ss) s))))
    by (traces; pace).
  destruct (outcome (scan_reply w (calls s))) as [d | e];
    [ destruct (is_limit_error d) as [[|] | e] |]; simpl negb; cbv iota;
    repeat split; eauto.
Qed.

Lemma poll_loop_paced host (w : env) base fuel ss s :
  (exists b, pace_at base b (trace s)) ->
  exists b, pace_at base b (trace (snd (poll_loop fuel host ss w s))).
Proof.
  apply (poll_loop_rule host w
    (fun _ s => exists b, pace_at base b (trace s))
    (fun _ s' => exists b, pace_at base b (trace s'))).
  clear. intros ss s (b & H). rewrite poll_iter_run.
  destruct (is_terminal (data ss)); [eauto |].
  assert (H0 : pace_at base b (trace (at_check s))) by (traces; pace).
  destruct (MAX_POLL_MINUTES * 60 <=? now s - started_at ss)%N.
  - destruct (mark_timeout (data ss)); eauto.
  - cbv zeta.
    assert (H2 : pace_at base false (trace (after_call host w (at_poll_sleep s))))
      by (traces; pace).
    assert (H4 : pace_at base false
                   (trace (after_call host w
                             (at_backoff (backoff ss)
                                (after_call host w (at_poll_sleep s))))))
      by (traces; pace).
    destruct (outcome (scan_reply w (calls s))) as [d | e];
      [ destruct (is_limit_error d) as [[|] | e];
        [ destruct (outcome (scan_reply w (S (calls s)))) |..] |];
      repeat split; eauto.
Qed.

(** X8: a call of [scan_until_ready] never makes two [ssl.newScan] calls
    without sleeping between them: every call after the first is made
    right after a poll wait or a backoff wait. *)
Theorem remote_calls_are_paced fuel host (w : env) s :
  exists tr,
    trace (snd (scan_until_ready fuel host w s)) = (trace s ++ tr)%list /\
    paced tr = true.
Proof.
  assert (H : exists b, pace_at (trace s) b
                          (trace (snd (scan_until_ready fuel host w s)))).
  { assert (H0 : pace_at (trace s) true (trace s))
      by (exists []; split; [now rewrite app_nil_r | reflexivity]).
    assert (H1 : pace_at (trace s) true (trace (after_cache host w s)))
      by (traces; pace).
    unfold scan_until_ready.
    rewrite (bind_Ret _ _ _ _ _ _ (try_resultsFromCache host w s)).
    assert (Hsession : exists b, pace_at (trace s) b
              (trace (snd (run_session fuel host w (after_cache host w s))))).
    { rewrite run_session_unfold, submit_phase_run. cbv zeta.
      set (s1 := after_cache host w s) in *.
      assert (H2 : pace_at (trace s) false (trace (after_call host w (at_check s1))))
        by (traces; pace).
      destruct (outcome (scan_reply w (calls s1))) as [d | e]; [| eauto].
      destruct (is_limit_error d) as [[|] | e]; [| | eauto].
      - pose proof (retry_loop_paced host w (trace s) fuel
                      (mkSession d BACKOFF_START (now s1) O) _
                      (ex_intro _ false H2)) as R.
        destruct (retry_loop fuel host _ w _) as [[ss' | e |] s2]; try exact R.
        now apply poll_loop_paced.
      - apply poll_loop_paced. eauto. }
    destruct (outcome (cache_reply w host)) as [cached | e]; [| exact Hsession].
    destruct (cache_hit (Ok cached)); [eauto | exact Hsession]. }
  destruct H as (b & tr & Htr & Hf). exists tr. split; [exact Htr |].
  unfold paced. now rewrite Hf.
Qed.

Lemma poll_waits_app t1 t2 : poll_waits (t1 ++ t2) = poll_waits t1 + poll_waits t2.
Proof. unfold poll_waits. now rewrite filter_app, length_app. Qed.

Lemma poll_ok_quiet base t0 s s' e :
  poll_ok base t0 s ->
  trace s' = (trace s ++ [e])%list -> poll_waits [e] = 0 -> (now s <= now s')%N ->
  poll_ok base t0 s'.
Proof.
  intros (tr & Htr & Hn & Ht & Hb) Hs' He Hnow. exists (tr ++ [e])%list.
  split; [rewrite Hs', Htr; now rewrite app_assoc |].
  unfold poll_budget. rewrite poll_waits_app, He, Nat.add_0_r.
  repeat split; [exact Hn | lia | lia].
Qed.

Lemma poll_ok_after_call base t0 host (w : env) s :
  poll_ok base t0 s -> poll_ok base t0 (after_call host w s).
Proof.
  intros H. apply (poll_ok_quiet base t0 s _ (EvNewScan host) H);
    [reflexivity | reflexivity | simpl; lia].
Qed.

Lemma poll_ok_at_backoff base t0 b s :
  poll_ok base t0 s -> poll_ok base t0 (at_backoff b s).
Proof.
  intros H.
  apply (poll_ok_quiet base t0 s _ (EvSleep BackoffWait (N.min b BACKOFF_MAX)) H);
    [reflexivity | reflexivity | simpl; lia].
Qed.

Lemma poll_ok_at_check base t0 s : poll_ok base t0 s -> poll_ok base t0 (at_check s).
Proof.
  intros H. apply (poll_ok_quiet base t0 s _ (EvClock (now s)) H);
    [reflexivity | reflexivity | simpl; lia].
Qed.

Lemma poll_ok_at_poll_sleep base t0 s :
  poll_ok base t0 s ->
  (now s - t0 < MAX_POLL_MINUTES * 60)%N ->
  poll_ok base t0 (at_poll_sleep s).
Proof.
  intros H Hearly. apply poll_ok_at_check in H.
  destruct H as (tr & Htr & Hn & Ht & Hb).
  exists (tr ++ [EvSleep PollWait POLL_WAIT])%list.
  split; [rewrite trace_at_poll_sleep, Htr; now rewrite app_assoc |].
  unfold poll_budget in *. rewrite poll_waits_app.
  change (poll_waits [EvSleep PollWait POLL_WAIT]) with 1.
  change (now (at_check s)) with (now s) in *.
  change (now (at_poll_sleep s)) with (now s + POLL_WAIT)%N.
  change max_polls with 40 in *.
  unfold MAX_POLL_MINUTES, POLL_WAIT in *. lia.
Qed.

Lemma retry_loop_poll_ok host (w : env) base fuel ss s :
  poll_ok base (started_at ss) s ->
  match retry_loop fuel host ss w s with
  | (Ret ss', s') => poll_ok base (started_at ss') s'
  | (_, s') => exists t0, poll_ok base t0 s'
  end.
Proof.
  intros H.
  pose proof (retry_loop_rule host w
    (fun ss s => poll_ok base (started_at ss) s)
    (fun r s' => match r with
                 | Ret ss' => poll_ok base (started_at ss') s'
                 | _ => exists t0, poll_ok base t0 s'
                 end)) as R.
  specialize (R ltac:(
    clear; intros ss s H; rewrite retry_iter_run; cbv zeta;
    pose proof (poll_ok_after_call base _ host w _
                  (poll_ok_at_backoff base _ (backoff ss) _ H)) as H1;
    destruct (outcome (scan_reply w (calls s))) as [d | e];
    [ destruct (is_limit_error d) as [[|] | e] |]; simpl negb; cbv iota;
    repeat split; eauto) fuel ss s H).
  destruct (retry_loop fuel host ss w s) as [[ss' | e |] s']; exact R.
Qed.

Lemma poll_loop_poll_ok host (w : env) base fuel ss s :
  poll_ok base (started_at ss) s ->
  exists t0, poll_ok base t0 (snd (poll_loop fuel host ss w s)).
Proof.
  apply (poll_loop_rule host w
    (fun ss s => poll_ok base (started_at ss) s)
    (fun _ s' => exists t0, poll_ok base t0 s')).
  clear. intros ss s H. rewrite poll_iter_run.
  destruct (is_terminal (data ss)); [eauto |].
  destruct (MAX_POLL_MINUTES * 60 <=? now s - started_at ss)%N eqn:El.
  - apply poll_ok_at_check in H. destruct (mark_timeout (data ss)); eauto.
  - cbv zeta. apply N.leb_gt in El.
    pose proof (poll_ok_after_call base _ host w _
                  (poll_ok_at_poll_sleep base _ _ H El)) as H2.
    pose proof (poll_ok_after_call base _ host w _
                  (poll_ok_at_backoff base _ (backoff ss) _ H2)) as H4.
    destruct (outcome (scan_reply w (calls s))) as [d | e];
      [ destruct (is_limit_error d) as [[|] | e];
        [ destruct (outcome (scan_reply w (S (calls s)))) |..] |];
      repeat split; eauto.
Qed.

(** X9: a call of [scan_until_ready] sleeps at most 40 poll waits
    ([MAX_POLL_MINUTES * 60 / POLL_WAIT]), whatever the replies and however
    long it runs: each poll wait costs 30 seconds of the session clock and
    none is started once 20 minutes have passed. *)
Theorem poll_waits_are_bounded fuel host (w : env) s :
  exists tr,
    trace (snd (scan_until_ready fuel host w s)) = (trace s ++ tr)%list /\
    poll_waits tr <= 40.
Proof.
  assert (H : exists t0, poll_ok (trace s) t0 (snd (scan_until_ready fuel host w s))).
  { set (s1 := after_cache host w s).
    assert (H1 : poll_ok (trace s) (now s1) s1).
    { exists [EvCache host]. split; [reflexivity |].
      unfold poll_budget. change (poll_waits [EvCache host]) with 0.
      change max_polls with 40. unfold POLL_WAIT. lia. }
    unfold scan_until_ready.
    rewrite (bind_Ret _ _ _ _ _ _ (try_resultsFromCache host w s)). fold s1.
    assert (Hsession : exists t0, poll_ok (trace s) t0 (snd (run_session fuel host w s1))).
    { rewrite run_session_unfold, submit_phase_run. cbv zeta.
      pose proof (poll_ok_after_call _ _ host w _
                    (poll_ok_at_check _ _ _ H1)) as H2.
      destruct (outcome (scan_reply w (calls s1))) as [d | e]; [| eauto].
      destruct (is_limit_error d) as [[|] | e]; [| | eauto].
      - pose proof (retry_loop_poll_ok host w (trace s) fuel
                      (mkSession d BACKOFF_START (now s1) O) _ H2) as R.
        destruct (retry_loop fuel host _ w _) as [[ss' | e |] s2]; try exact R.
        now apply poll_loop_poll_ok.
      - now apply poll_loop_poll_ok. }
    destruct (outcome (cache_reply w host)) as [cached | e]; [| exact Hsession].
    destruct (cache_hit (Ok cached)); [eauto | exact Hsession]. }
  destruct H as (t0 & tr & Htr & Hn & _). exists tr. split; [exact Htr | exact Hn].
Qed.

(* ================================================================== *)
(** ** The loop of [main] *)

Lemma same_outputs_refl s : same_outputs s s.
Proof. repeat split. Qed.

Lemma same_outputs_trans s1 s2 s3 :
  same_outputs s1 s2 -> same_outputs s2 s3 -> same_outputs s1 s3.
Proof. unfold same_outputs. intros (-> & -> & ->) (-> & -> & ->). auto. Qed.

Lemma retry_loop_outputs host (w : env) fuel ss s :
  same_outputs s (snd (retry_loop fuel host ss w s)).
Proof.
  apply (retry_loop_rule host w (fun _ s1 => same_outputs s s1)
                         (fun _ s1 => same_outputs s s1));
    [| apply same_outputs_refl].
  clear. intros ss s1 H. rewrite retry_iter_run. cbv zeta.
  assert (H1 : same_outputs s (after_call host w (at_backoff (backoff ss) s1)))
    by (apply (same_outputs_trans _ _ _ H); repeat split).
  destruct (outcome (scan_reply w (calls s1))) as [d | e];
    [ destruct (is_limit_error d) as [[|] | e] |]; simpl negb; cbv iota;
    repeat split; apply H1.
Qed.

Lemma poll_loop_outputs host (w : env) fuel ss s :
  same_outputs s (snd (poll_loop fuel host ss w s)).
Proof.
  apply (poll_loop_rule host w (fun _ s1 => same_outputs s s1)
                        (fun _ s1 => same_outputs s s1));
    [| apply same_outputs_refl].
  clear. intros ss s1 H. rewrite poll_iter_run.
  destruct (is_terminal (data ss)); [exact H |].
  destruct (MAX_POLL_MINUTES * 60 <=? now s1 - started_at ss)%N.
  - destruct (mark_timeout (data ss));
      apply (same_outputs_trans _ _ _ H); repeat split.
  - cbv zeta.
    assert (H2 : same_outputs s (after_call host w (at_poll_sleep s1)))
      by (apply (same_outputs_trans _ _ _ H); repeat split).
    assert (H4 : same_outputs s
                   (after_call host w
                      (at_backoff (backoff ss) (after_call host w (at_poll_sleep s1)))))
      by (apply (same_outputs_trans _ _ _ H); repeat split).
    destruct (outcome (scan_reply w (calls s1))) as [d | e];
      [ destruct (is_limit_error d) as [[|] | e];
        [ destruct (outcome (scan_reply w (S (calls s1)))) |..] |];
      repeat split; first [apply H2 | apply H4].
Qed.

(** [scan_until_ready] writes nothing: the report files are the business
    of [main]. *)
Lemma scan_until_ready_outputs fuel host (w : env) s :
  same_outputs s (snd (scan_until_ready fuel host w s)).
Proof.
  unfold scan_until_ready.
  rewrite (bind_Ret _ _ _ _ _ _ (try_resultsFromCache host w s)).
  set (s1 := after_cache host w s).
  assert (H1 : same_outputs s s1) by (repeat split).
  assert (Hsession : same_outputs s (snd (run_session fuel host w s1))).
  { rewrite run_session_unfold, submit_phase_run. cbv zeta.
    assert (H2 : same_outputs s (after_call host w (at_check s1)))
      by (repeat split).
    destruct (outcome (scan_reply w (calls s1))) as [d | e]; [| exact H2].
    destruct (is_limit_error d) as [[|] | e]; [| | exact H2].
    - pose proof (retry_loop_outputs host w fuel
                    (mkSession d BACKOFF_START (now s1) O)
                    (after_call host w (at_check s1))) as R.
      destruct (retry_loop fuel host _ w _) as [[ss' | e |] s2];
        simpl snd in *;
        try (apply (same_outputs_trans _ _ _ H2 R)).
      apply (same_outputs_trans _ _ _ (same_outputs_trans _ _ _ H2 R)).
      apply poll_loop_outputs.
    - apply (same_outputs_trans _ _ _ H2). apply poll_loop_outputs. }
  destruct (outcome (cache_reply w host)) as [cached | e]; [| exact Hsession].
  destruct (cache_hit (Ok cached)); [exact H1 | exact Hsession].
Qed.

(** The body of the loop, by cases on the probe and on the scan. *)
Lemma process_host_run fuel sub (w : env) s :
  process_host fuel sub w s =
  if has_port_443 w sub then
    match scan_until_ready fuel sub w (log EvClose (after_probe sub w s)) with
    | (Ret d, s2) => (Ret tt, reported sub d s2)
    | (Raise e, s2) => (Raise e, s2)
    | (Diverge, s2) => (Diverge, s2)
    end
  else (Ret tt, skipped sub (after_probe sub w s)).
Proof.
  unfold process_host, has_port_443. unfold bind at 1. rewrite has_https_run.
  fold (after_probe sub w s).
  destruct (outcome (connect_reply w sub)); [| reflexivity].
  cbn [is_ok negb]. unfold bind at 1.
  destruct (scan_until_ready fuel sub w _) as [[d | e |] s2]; try reflexivity.
  unfold bind, writerow, txt_write, json_dump, reported.
  cbn [now calls trace csv txt files]. now rewrite <- !app_assoc.
Qed.

(** X10: when no host of the list accepts connections on port 443, the
    loop of [main] returns normally having written one "No HTTPS" row per
    host, in the order of the list, and nothing else happened than one
    connection attempt per host: no cache lookup, no [ssl.newScan] call, no
    sleep and no JSON file. *)
Theorem unreachable_hosts_only_get_placeholder_rows fuel subs :
  forall (w : env) s,
    (forall h, In h subs -> has_port_443 w h = false) ->
    exists s',
      main_loop fuel subs w s = (Ret tt, s') /\
      csv s' = (csv s ++ map no_https_row subs)%list /\
      trace s' = (trace s ++ map (fun h => EvConnect h 443 4) subs)%list /\
      calls s' = calls s /\
      files s' = files s.
Proof.
  induction subs as [| sub subs IH]; intros w s Hdown.
  - exists s. cbn [map]. rewrite !app_nil_r. repeat split.
  - destruct (IH w (skipped sub (after_probe sub w s))) as (s' & Hrun & Hcsv & Htr & Hc & Hf).
    { intros h Hh. apply Hdown. now right. }
    exists s'. split.
    + cbn [main_loop]. unfold bind. rewrite process_host_run.
      rewrite (Hdown sub (or_introl eq_refl)). exact Hrun.
    + rewrite Hcsv, Htr, Hc, Hf. cbn [map]. simpl csv. simpl trace.
      rewrite <- !app_assoc. repeat split.
Qed.

Lemma main_loop_rows fuel subs :
  forall (w : env) s s',
    main_loop fuel subs w s = (Ret tt, s') ->
    exists rows,
      csv s' = (csv s ++ rows)%list /\
      List.length rows = List.length subs /\
      Forall (fun row => List.length row = 15 \/ List.length row = 14) rows /\
      List.length (files s') =
        List.length (files s) + List.length (filter (has_port_443 w) subs).
Proof.
  induction subs as [| sub subs IH]; intros w s s' Hrun.
  - injection Hrun as <-. exists []. rewrite app_nil_r. repeat split.
    + constructor.
    + simpl. lia.
  - cbn [main_loop] in Hrun. unfold bind in Hrun. rewrite process_host_run in Hrun.
    cbn [filter].
    destruct (has_port_443 w sub).
    + pose proof (scan_until_ready_outputs fuel sub w
                    (log EvClose (after_probe sub w s))) as (Hc & _ & Hf).
      destruct (scan_until_ready fuel sub w _) as [[d | e |] s2];
        try discriminate.
      simpl snd in Hc, Hf.
      destruct (IH w _ s' Hrun) as (rows & Hcsv & Hlen & Hw & Hfiles).
      exists (extract_summary d :: rows).
      simpl csv in Hcsv. simpl files in Hfiles.
      rewrite Hc in Hcsv. rewrite Hf, length_app in Hfiles.
      simpl csv in Hcsv. simpl files in Hfiles.
      repeat split.
      * rewrite Hcsv, <- app_assoc. reflexivity.
      * simpl. now rewrite Hlen.
      * constructor; [| exact Hw].
        rewrite extract_summary_columns. destruct (is_ok (summary_row d)); auto.
      * rewrite Hfiles. simpl. lia.
    + destruct (IH w _ s' Hrun) as (rows & Hcsv & Hlen & Hw & Hfiles).
      exists (no_https_row sub :: rows).
      simpl csv in Hcsv. simpl files in Hfiles.
      repeat split.
      * rewrite Hcsv, <- app_assoc. reflexivity.
      * simpl. now rewrite Hlen.
      * constructor; [now left | exact Hw].
      * exact Hfiles.
Qed.

(** X11: when [main] returns normally, the CSV file holds the header row
    followed by exactly one row per host of the list, each of 15 or 14
    columns, and one JSON file was written per host that accepted the
    connection on port 443. *)
Theorem main_writes_one_row_per_host fuel subs (w : env) s s' :
  main fuel subs w s = (Ret tt, s') ->
  exists rows,
    csv s' = (csv s ++ map JStr csv_header :: rows)%list /\
    List.length rows = List.length subs /\
    Forall (fun row => List.length row = 15 \/ List.length row = 14) rows /\
    List.length (files s') =
      List.length (files s) + List.length (filter (has_port_443 w) subs).
Proof.
  unfold main, bind, writerow. intros Hrun.
  destruct (main_loop_rows fuel subs w _ s' Hrun) as (rows & Hcsv & Hlen & Hw & Hf).
  exists rows. simpl csv in Hcsv. simpl files in Hf.
  repeat split; try assumption.
  rewrite Hcsv, <- app_assoc. reflexivity.
Qed.

(** X12: [main] has no handler around [scan_until_ready]: when the scan of
    a reachable host raises (a response [is_limit_error] cannot read, or
    non-list warnings at the ceiling), the loop stops with that exception,
    writes no row for the host and never gets to the hosts after it. *)
Theorem exception_in_scan_aborts_the_loop fuel sub rest (w : env) s e s2 :
  has_port_443 w sub = true ->
  scan_until_ready fuel sub w (log EvClose (after_probe sub w s)) = (Raise e, s2) ->
  main_loop fuel (sub :: rest) w s = (Raise e, s2) /\
  same_outputs s s2.
Proof.
  intros Hup Hscan. split.
  - cbn [main_loop]. unfold bind. rewrite process_host_run, Hup, Hscan. reflexivity.
  - pose proof (scan_until_ready_outputs fuel sub w
                  (log EvClose (after_probe sub w s))) as H.
    rewrite Hscan in H. exact H.
Qed.

(* ================================================================== *)
(** ** The width of a summary row *)

(** X16: the row [extract_summary] returns is as wide as the header of the
    CSV file exactly when the [try] block ran to its end; when any step of
    it raised, the row has 14 columns. *)
Theorem extract_summary_width d :
  (List.length (extract_summary d) = List.length csv_header <->
   is_ok (summary_row d) = true) /\
  (is_ok (summary_row d) = false -> List.length (extract_summary d) = 14).
Proof.
  rewrite extract_summary_columns.
  destruct (is_ok (summary_row d)); simpl; split; try tauto; try discriminate.
  split; discriminate.
Qed.

(* ================================================================== *)
(** ** Backoff at submission counts against the polling ceiling *)

Lemma waits_total_mono k : forall b k', k <= k' -> (waits_total b k <= waits_total b k')%N.
Proof.
  induction k as [| k IH]; intros b k' H; [simpl; lia |].
  destruct k' as [| k']; [lia |]. simpl.
  specialize (IH (next_backoff b) k' ltac:(lia)). lia.
Qed.

Lemma poll_waits_retry_events host b k : poll_waits (retry_events host b k) = 0.
Proof. revert b. induction k as [| k IH]; intros b; [reflexivity | apply IH]. Qed.

Lemma retry_loop_time host (w : env) K :
  forall fuel ss s,
    K <= fuel ->
    (forall i, i < K -> reports_limit (outcome (scan_reply w (calls s + i))) = true) ->
    resolves (outcome (scan_reply w (calls s + K))) = true ->
    (now s + waits_total (backoff ss) (S K) <=
     now (snd (retry_loop fuel host ss w s)))%N.
Proof.
  induction K as [| K IH]; intros fuel ss s Hfuel Hlim Hres;
    rewrite retry_loop_unfold, retry_iter_run; cbv zeta.
  - rewrite Nat.add_0_r in Hres. unfold resolves in Hres.
    destruct (outcome (scan_reply w (calls s))) as [d | e].
    + destruct (is_limit_error d) as [[|] | e]; try discriminate.
      simpl. lia.
    + simpl. lia.
  - destruct fuel as [| fuel]; [lia |].
    pose proof (Hlim 0 ltac:(lia)) as H0. rewrite Nat.add_0_r in H0.
    unfold reports_limit in H0.
    destruct (outcome (scan_reply w (calls s))) as [d | e]; [| discriminate].
    destruct (is_limit_error d) as [[|] | e]; try discriminate.
    simpl negb. cbv iota.
    set (s1 := after_call host w (at_backoff (backoff ss) s)).
    set (ss1 := mkSession d (next_backoff (backoff ss)) (started_at ss) (attempt ss)).
    assert (H1 : (now s + N.min (backoff ss) BACKOFF_MAX <= now s1)%N)
      by (unfold s1; simpl; lia).
    specialize (IH fuel ss1 s1 ltac:(lia)).
    assert (Hstep : (now s1 + waits_total (backoff ss1) (S K) <=
                     now (snd (retry_loop fuel host ss1 w s1)))%N).
    { apply IH.
      - intros i Hi. change (calls s1) with (S (calls s)).
        replace (S (calls s) + i) with (calls s + S i) by lia. apply Hlim. lia.
      - change (calls s1) with (S (calls s)).
        replace (S (calls s) + K) with (calls s + S K) by lia. exact Hres. }
    change (waits_total (backoff ss) (S (S K)))
      with (N.min (backoff ss) BACKOFF_MAX + waits_total (backoff ss1) (S K))%N.
    lia.
Qed.

(** X17: the session clock starts before the first submit, so the backoff
    waits of the submission phase count against the polling ceiling: after
    five or more quota-exceeded replies (60 + 120 + 240 + 480 + 600 seconds
    of waits) a first non-terminal response is returned at once with the
    timeout warning, without a single poll. *)
Theorem long_submission_leaves_no_time_to_poll K fuel host (w : env) s d d' :
  5 <= K -> K <= fuel ->
  cache_hit (outcome (cache_reply w host)) = false ->
  (forall i, i < K -> reports_limit (outcome (scan_reply w (calls s + i))) = true) ->
  outcome (scan_reply w (calls s + K)) = Ok d ->
  is_limit_error d = Ok false ->
  is_terminal d = false ->
  mark_timeout d = Ok d' ->
  exists s' tr,
    scan_until_ready fuel host w s = (Ret d', s') /\
    calls s' = calls s + (K + 1) /\
    trace s' = (trace s ++ tr)%list /\
    poll_waits tr = 0.
Proof.
  intros H5 Hfuel Hmiss Hlim Hd Hnl Hnt Hmark.
  rewrite (scan_until_ready_miss _ _ _ _ Hmiss).
  rewrite run_session_unfold, submit_phase_run. cbv zeta.
  set (s0 := after_cache host w s).
  change (calls s0) with (calls s).
  pose proof (Hlim 0 ltac:(lia)) as H0. rewrite Nat.add_0_r in H0.
  unfold reports_limit in H0.
  destruct (outcome (scan_reply w (calls s))) as [d0 | e]; [| discriminate].
  destruct (is_limit_error d0) as [[|] | e]; try discriminate.
  destruct K as [| K]; [lia |].
  set (s1 := after_call host w (at_check s0)).
  set (ss := mkSession d0 BACKOFF_START (now s0) O).
  assert (Hc : calls s1 = S (calls s)) by reflexivity.
  assert (Hlim1 : forall i, i < K ->
            reports_limit (outcome (scan_reply w (calls s1 + i))) = true).
  { intros i Hi. rewrite Hc. replace (S (calls s) + i) with (calls s + S i) by lia.
    apply Hlim. lia. }
  assert (Hres1 : resolves (outcome (scan_reply w (calls s1 + K))) = true).
  { rewrite Hc. replace (S (calls s) + K) with (calls s + S K) by lia.
    rewrite Hd. unfold resolves. now rewrite Hnl. }
  pose proof (retry_loop_time host w K fuel ss s1 ltac:(lia) Hlim1 Hres1) as Htime.
  destruct (retry_loop_exits host w K fuel ss s1 ltac:(lia) Hlim1 Hres1)
    as (s2 & Hrun & Hcalls & Htrace & _).
  rewrite Hrun in Htime |- *. simpl snd in Htime.
  rewrite Hc in Hrun, Hcalls.
  replace (calls s1 + K) with (calls s + S K) by lia.
  rewrite Hd. simpl retry_data.
  rewrite poll_loop_unfold, poll_iter_run. cbn [data started_at]. rewrite Hnt.
  assert (Hlate : (MAX_POLL_MINUTES * 60 <= now s2 - now s0)%N).
  { pose proof (waits_total_mono 5 BACKOFF_START (S K) ltac:(lia)) as Hw.
    change (waits_total BACKOFF_START 5) with 1500%N in Hw.
    change (backoff ss) with BACKOFF_START in Htime.
    assert (now s0 <= now s1)%N by (unfold s1; simpl; lia).
    unfold MAX_POLL_MINUTES. lia. }
  apply N.leb_le in Hlate. change (started_at ss) with (now s0).
  rewrite Hlate, Hmark.
  eexists _, _. split; [reflexivity |]. split; [simpl; lia |]. split.
  - rewrite trace_at_check, Htrace. unfold s1, s0.
    rewrite trace_after_call, trace_at_check, trace_after_cache.
    rewrite <- !app_assoc. reflexivity.
  - rewrite !poll_waits_app, poll_waits_retry_events. reflexivity.
Qed.

End Runtime.

(* ================================================================== *)
(** ** Flattening a payload *)

Lemma json_nested_ind (P : json -> Prop) :
  P JNull -> (forall b, P (JBool b)) -> (forall z, P (JInt z)) ->
  (forall f, P (JFloat f)) -> (forall s, P (JStr s)) ->
  (forall l, Forall P l -> P (JList l)) ->
  (forall kv, Forall (fun p => P (snd p)) kv -> P (JObj kv)) ->
  forall y, P y.
Proof.
  intros Hn Hb Hi Hf Hs Hl Ho. fix IH 1.
  intros [| b | z | f | s | l | kv];
    [apply Hn | apply Hb | apply Hi | apply Hf | apply Hs | |].
  - apply Hl. induction l as [| x l IHl]; constructor; [apply IH | exact IHl].
  - apply Ho. induction kv as [| [k v] kv IHkv]; constructor; [apply IH | exact IHkv].
Qed.

Lemma drop_last_dot p : drop_last (p ++ ".") = p.
Proof.
  induction p as [| c p IH]; [reflexivity |].
  change (String c p ++ ".")%string with (String c (p ++ ".")).
  cbn [drop_last]. rewrite IH. destruct p; reflexivity.
Qed.

Lemma flatten_json_scalar v prefix :
  is_scalar v = true -> flatten_json v prefix = [(drop_last prefix, v)].
Proof. destruct v; try reflexivity; discriminate. Qed.

Lemma dict_set_fresh k v d :
  ~ In k (map fst d) -> dict_set k v d = (d ++ [(k, v)])%list.
Proof.
  induction d as [| [k' v'] d IH]; simpl; intros Hn; [reflexivity |].
  destruct (String.eqb k k') eqn:E.
  - apply String.eqb_eq in E. subst k'. tauto.
  - rewrite IH; [reflexivity | tauto].
Qed.

Lemma dict_set_keys k v d :
  In k (map fst d) -> map fst (dict_set k v d) = map fst d.
Proof.
  induction d as [| [k' v'] d IH]; simpl; intros Hin; [tauto |].
  destruct (String.eqb k k') eqn:E; [reflexivity |].
  simpl. rewrite IH; [reflexivity |].
  destruct Hin as [-> | Hin]; [| exact Hin].
  rewrite String.eqb_refl in E. discriminate.
Qed.

Lemma dict_set_Forall (Q : string -> json -> Prop) k v d :
  (forall k', String.eqb k k' = true -> Q k' v) ->
  Forall (fun kv => Q (fst kv) (snd kv)) d ->
  Forall (fun kv => Q (fst kv) (snd kv)) (dict_set k v d).
Proof.
  intros Hk. induction 1 as [| [k' v'] d Hx Hd IH]; simpl.
  - constructor; [apply Hk, String.eqb_refl | constructor].
  - destruct (String.eqb k k') eqn:E.
    + constructor; [exact (Hk k' E) | exact Hd].
    + constructor; [exact Hx | exact IH].
Qed.

Lemma dict_update_Forall (Q : string -> json -> Prop) other :
  (forall k k' v, String.eqb k k' = true -> Q k v -> Q k' v) ->
  Forall (fun kv => Q (fst kv) (snd kv)) other ->
  forall out,
    Forall (fun kv => Q (fst kv) (snd kv)) out ->
    Forall (fun kv => Q (fst kv) (snd kv)) (dict_update out other).
Proof.
  intros Hq. unfold dict_update.
  induction 1 as [| [k v] other Hx _ IH]; intros out Hout; [exact Hout |].
  simpl. apply IH. apply dict_set_Forall; [| exact Hout].
  intros k' E. apply (Hq k k' v E Hx).
Qed.

Lemma dict_set_NoDup k v d : NoDup (map fst d) -> NoDup (map fst (dict_set k v d)).
Proof.
  intros H. destruct (in_dec string_dec k (map fst d)) as [Hin | Hn].
  - now rewrite dict_set_keys.
  - rewrite (dict_set_fresh _ _ _ Hn), map_app. simpl.
    apply NoDup_app; [exact H | repeat constructor; tauto |].
    intros x Hx [<- | []]. tauto.
Qed.

Lemma dict_update_NoDup other :
  forall out, NoDup (map fst out) -> NoDup (map fst (dict_update out other)).
Proof.
  unfold dict_update. induction other as [| [k v] other IH]; intros out H;
    [exact H |].
  simpl. apply IH. now apply dict_set_NoDup.
Qed.

Lemma dict_update_flat out other : flat out -> flat other -> flat (dict_update out other).
Proof.
  intros (Hn & Hs) (_ & Hs'). split; [now apply dict_update_NoDup |].
  apply (dict_update_Forall (fun _ v => is_scalar v = true)); auto.
Qed.

Lemma flatten_items_inv (I : dict -> Prop) f prefix kv :
  (forall out other, I out -> I other -> I (dict_update out other)) ->
  Forall (fun p => forall q, I (f (snd p) q)) kv ->
  forall out, I out -> I (flatten_items f prefix kv out).
Proof.
  intros Hupd. induction 1 as [| [k v] kv Hx _ IH]; intros out Hout; [exact Hout |].
  simpl. apply IH. apply Hupd; [exact Hout | apply Hx].
Qed.

Lemma flatten_enum_inv (I : dict -> Prop) f prefix l :
  (forall out other, I out -> I other -> I (dict_update out other)) ->
  Forall (fun x => forall q, I (f x q)) l ->
  forall i out, I out -> I (flatten_enum f prefix l i out).
Proof.
  intros Hupd. induction 1 as [| x l Hx _ IH]; intros i out Hout; [exact Hout |].
  simpl. apply IH. apply Hupd; [exact Hout | apply Hx].
Qed.

Lemma flat_nil : flat [].
Proof. split; constructor. Qed.

Lemma flatten_json_flat y : forall prefix, flat (flatten_json y prefix).
Proof.
  induction y as [| b | z | f | s | l IH | kv IH] using json_nested_ind;
    intros prefix;
    try (split; [repeat constructor; simpl; tauto | repeat constructor]).
  - apply (flatten_enum_inv flat); [apply dict_update_flat | exact IH | apply flat_nil].
  - apply (flatten_items_inv flat); [apply dict_update_flat | exact IH | apply flat_nil].
Qed.

(** X13: whatever the payload and the prefix, [flatten_json] returns a
    flat record: its keys are distinct and none of its values is a dict or a
    list. *)
Theorem flatten_json_is_flat y prefix :
  NoDup (map fst (flatten_json y prefix)) /\
  Forall (fun kv => is_dict (snd kv) = false /\ is_list (snd kv) = false)
         (flatten_json y prefix).
Proof.
  destruct (flatten_json_flat y prefix) as (Hn & Hs). split; [exact Hn |].
  rewrite Forall_forall in *. intros kv Hin. specialize (Hs kv Hin).
  unfold is_scalar in Hs. apply andb_prop in Hs.
  destruct (is_dict (snd kv)), (is_list (snd kv)); simpl in Hs;
    destruct Hs; split; congruence.
Qed.

Lemma flatten_items_flat_record todo :
  forall done,
    flat (done ++ todo)%list ->
    flatten_items flatten_json "" todo done = (done ++ todo)%list.
Proof.
  induction todo as [| [k v] todo IH]; intros done Hflat; simpl.
  - now rewrite app_nil_r.
  - destruct Hflat as (Hn & Hs).
    assert (Hv : is_scalar v = true).
    { rewrite Forall_forall in Hs. apply (Hs (k, v)).
      apply in_or_app. right. now left. }
    assert (Hk : ~ In k (map fst done)).
    { rewrite map_app in Hn. simpl in Hn. apply NoDup_remove_2 in Hn.
      intros Hin. apply Hn. apply in_or_app. now left. }
    rewrite (flatten_json_scalar _ _ Hv).
    change (child_prefix "" k) with (k ++ ".")%string. rewrite drop_last_dot.
    unfold dict_update. simpl fold_left. rewrite (dict_set_fresh _ _ _ Hk).
    rewrite IH; rewrite <- app_assoc; [reflexivity | split; assumption].
Qed.

(** X14: [flatten_json] leaves a record that is already flat as it is,
    with its keys in the same order; so flattening the result of
    [flatten_json] again changes nothing. *)
Theorem flatten_json_keeps_flat_records d y prefix :
  (flat d -> flatten_json (JObj d) "" = d) /\
  flatten_json (JObj (flatten_json y prefix)) "" = flatten_json y prefix.
Proof.
  assert (H : forall r, flat r -> flatten_json (JObj r) "" = r)
    by (intros r Hr; apply (flatten_items_flat_record r []); exact Hr).
  split; [apply H | apply H, flatten_json_flat].
Qed.

Lemma is_prefix_refl p : is_prefix p p = true.
Proof. apply is_prefix_spec. exists "". induction p; simpl; congruence. Qed.

Lemma string_app_assoc a b c : ((a ++ b) ++ c)%string = (a ++ b ++ c)%string.
Proof. induction a; simpl; congruence. Qed.

Lemma is_prefix_trans p q k :
  is_prefix p q = true -> is_prefix q k = true -> is_prefix p k = true.
Proof.
  rewrite !is_prefix_spec. intros (x & ->) (y & ->).
  exists (x ++ y)%string. apply string_app_assoc.
Qed.

Lemma keys_under_weaken p q d :
  is_prefix p q = true -> keys_under q d -> keys_under p d.
Proof.
  intros Hpq H. unfold keys_under in *. rewrite Forall_forall in *.
  intros kv Hin. apply (is_prefix_trans _ _ _ Hpq). now apply H.
Qed.

Lemma dict_update_keys_under p out other :
  keys_under p out -> keys_under p other -> keys_under p (dict_update out other).
Proof.
  intros Hout Hother.
  apply (dict_update_Forall (fun k _ => is_prefix p k = true)); auto.
  intros k k' _ E. apply String.eqb_eq in E. now subst.
Qed.

Lemma flatten_items_under (Q : string -> Prop) f prefix kv :
  forall out,
    Forall (fun p => Q (fst p)) out ->
    (forall k v, In (k, v) kv ->
                 Forall (fun p => Q (fst p)) (f v (child_prefix prefix k))) ->
    Forall (fun p => Q (fst p)) (flatten_items f prefix kv out).
Proof.
  induction kv as [| [k v] kv IH]; intros out Hout Hkv; [exact Hout |].
  simpl. apply IH.
  - apply (dict_update_Forall (fun k _ => Q k)).
    + intros k1 k2 _ E. apply String.eqb_eq in E. now subst.
    + apply Hkv. now left.
    + exact Hout.
  - intros k' v' Hin. apply Hkv. now right.
Qed.

Lemma flatten_enum_under p f l :
  (forall x q, In x l -> keys_under q (f x (q ++ "."))) ->
  forall i out,
    keys_under p out -> keys_under p (flatten_enum f (p ++ ".") l i out).
Proof.
  induction l as [| x l IH]; intros Hl i out Hout; [exact Hout |].
  simpl. apply IH.
  - intros y q Hy. apply Hl. now right.
  - apply dict_update_keys_under; [exact Hout |].
    rewrite <- string_app_assoc.
    apply (keys_under_weaken p ((p ++ ".") ++ str_of_nat i)).
    + apply is_prefix_spec. rewrite string_app_assoc. eauto.
    + apply Hl. now left.
Qed.

Lemma child_prefix_dot p k : child_prefix (p ++ ".") k = ((p ++ "." ++ k) ++ ".")%string.
Proof.
  unfold child_prefix. destruct (String.eqb (p ++ ".") "") eqn:E.
  - apply String.eqb_eq in E. destruct p; discriminate.
  - now rewrite !string_app_assoc.
Qed.

Lemma flatten_json_under y : forall p, keys_under p (flatten_json y (p ++ ".")).
Proof.
  induction y as [| b | z | f | s | l IH | kv IH] using json_nested_ind;
    intros p;
    try (cbn [flatten_json]; rewrite drop_last_dot;
         constructor; [apply is_prefix_refl | constructor]).
  - cbn [flatten_json]. apply flatten_enum_under; [| constructor].
    intros x q Hx. rewrite Forall_forall in IH. now apply IH.
  - cbn [flatten_json]. apply (flatten_items_under (fun k => is_prefix p k = true));
      [constructor |].
    intros k v Hin. rewrite child_prefix_dot.
    apply (keys_under_weaken p (p ++ "." ++ k)).
    + apply is_prefix_spec. eauto.
    + rewrite Forall_forall in IH. apply (IH (k, v) Hin).
Qed.

(** X15: every key of the record [flatten_json] returns for a dict is a
    path that starts with one of the keys of that dict: the columns of the
    spreadsheet are grouped by top-level field. *)
Theorem flatten_json_keys_start_with_a_field kv key :
  In key (map fst (flatten_json (JObj kv) "")) ->
  exists k, In k (map fst kv) /\ is_prefix k key = true.
Proof.
  intros Hin.
  pose proof (flatten_items_under
                (fun key => exists k, In k (map fst kv) /\ is_prefix k key = true)
                flatten_json "" kv [] (Forall_nil _)) as H.
  rewrite Forall_forall in H.
  apply in_map_iff in Hin. destruct Hin as (p & <- & Hp).
  apply H; [| exact Hp].
  intros k v Hkv. change (child_prefix "" k) with (k ++ ".")%string.
  pose proof (flatten_json_under v k) as Hu.
  unfold keys_under in Hu. rewrite Forall_forall in *.
  intros q Hq. exists k. split; [| now apply Hu].
  apply in_map_iff. now exists (k, v).
Qed.

(* ================================================================== *)
(** ** Where the stated properties fail *)

(** C1, as stated, fails: after one quota-exceeded reply the wait before
    the second attempt is the floor, 60 seconds, and not
    min(60 * 2^1, 600) = 120; this holds whatever [repr] is. *)
Lemma backoff_formula_is_off_by_one :
  ~ (exists py_repr,
       forall N fuel host (w : env) s,
         1 <= N -> N <= fuel ->
         cache_hit (outcome (cache_reply w host)) = false ->
         (forall i, i < N ->
            reports_limit py_repr (outcome (scan_reply w (calls s + i))) = true) ->
         exists tr,
           trace (snd (scan_until_ready py_repr fuel host w s)) = (trace s ++ tr)%list /\
           wait_before_call tr None (N + 1) =
             Some (N.min (BACKOFF_START * 2 ^ N.of_nat N) BACKOFF_MAX)).
Proof.
  intros [r H].
  destruct (H 1 1 "www.example.com" limited_once fresh) as (tr & Htr & Hw).
  - lia.
  - lia.
  - reflexivity.
  - intros i Hi. destruct i; [reflexivity | lia].
  - vm_compute in Htr. subst tr. vm_compute in Hw. discriminate.
Qed.

(** C2, as stated, fails: when every reply reports quota-exceeded, no
    amount of fuel makes [scan_until_ready] return. *)
Lemma all_quota_exceeded_never_returns :
  ~ (exists py_repr,
       forall host (w : env) s,
         exists fuel d s',
           scan_until_ready py_repr fuel host w s = (Ret d, s') /\
           (is_terminal d = true \/ timed_out d = true)).
Proof.
  intros [r H].
  destruct (H "www.example.com" limited_forever fresh) as (fuel & d & s' & Hrun & _).
  pose proof (scan_until_ready_forever r "www.example.com" limited_forever
                eq_refl (fun _ => eq_refl) fuel fresh) as D.
  rewrite Hrun in D. discriminate.
Qed.

(** C3, as stated, fails: with calls that take one second each and an
    assessment that stays in progress, the session started at time 0
    returns at time 1210, ten seconds after the ceiling. *)
Lemma poll_loop_returns_after_the_ceiling :
  ~ (exists py_repr,
       forall fuel host (w : env) d s' t0,
         cache_hit (outcome (cache_reply w host)) = false ->
         (forall k, exists d',
            outcome (scan_reply w k) = Ok d' /\ is_terminal d' = false) ->
         scan_until_ready py_repr fuel host w fresh = (Ret d, s') ->
         session_start (trace s') = Some t0 ->
         (now s' - t0 <= MAX_POLL_MINUTES * 60)%N).
Proof.
  intros [r H].
  assert (E : exists d s',
             scan_until_ready r 40 "www.example.com" slow_in_progress fresh = (Ret d, s') /\
             session_start (trace s') = Some 0%N /\
             now s' = 1210%N).
  { vm_compute. eexists _, _. repeat split. }
  destruct E as (d & s' & Hrun & Hstart & Hnow).
  specialize (H 40 "www.example.com" slow_in_progress d s' 0%N eq_refl).
  specialize (H (fun _ => ex_intro _ (in_progress_response "www.example.com")
                            (conj eq_refl eq_refl)) Hrun Hstart).
  rewrite Hnow in H. unfold MAX_POLL_MINUTES in H. lia.
Qed.


(* ================================================================== *)
(** ** The properties at sample inputs *)

Lemma backoff_follows_schedule_witness :
  exists tr,
    trace (snd (scan_until_ready repr_unused 1 "www.example.com" limited_once fresh)) =
      (trace fresh ++ tr)%list /\
    wait_before_call tr None (1 + 1) = Some (nth_wait (1 - 1)).
Proof.
  apply (proj1 (proj2 (backoff_follows_schedule repr_unused 1 "www.example.com"
                         limited_once fresh)) 1).
  - lia.
  - lia.
  - reflexivity.
  - intros i Hi. destruct i; [reflexivity | lia].
Defined.

Lemma session_terminates_witness :
  exists d s',
    scan_until_ready repr_unused 41 "www.example.com" limited_once fresh = (Ret d, s') /\
    (is_terminal d = true \/ timed_out d = true).
Proof.
  apply (session_terminates repr_unused "www.example.com" limited_once fresh 1 41).
  - intros k d Hd. destruct k; simpl in Hd; injection Hd as <-; reflexivity.
  - reflexivity.
  - lia.
Defined.

Lemma gives_up_at_first_late_check_witness :
  exists d0 d s' t0 mid,
    scan_until_ready repr_unused 40 "www.example.com" slow_in_progress fresh = (Ret d, s') /\
    calls fresh < calls s' /\
    outcome (scan_reply slow_in_progress (pred (calls s'))) = Ok d0 /\
    (forall k, k <> "warnings" -> dict_get k d = dict_get k d0) /\
    dict_get "status" d = dict_get "status" d0 /\
    dict_get "warnings" d = Some (JList (warnings_of d0 ++ [JStr timeout_warning])) /\
    trace s' = (trace fresh ++ [EvCache "www.example.com"; EvClock t0] ++ mid ++
                [EvClock (now s')])%list /\
    early t0 mid /\
    (MAX_POLL_MINUTES * 60 <= now s' - t0)%N.
Proof.
  apply (gives_up_at_first_late_check repr_unused "www.example.com"
           slow_in_progress fresh 0 40).
  - reflexivity.
  - intros k. exists (in_progress_response "www.example.com"). repeat split.
  - reflexivity.
  - lia.
Defined.


Lemma mid_poll_limit_one_extra_call_witness :
  fst (poll_iter repr_unused "www.example.com" mid_session limited_once fresh) =
  Ret (inr (mkSession (ready_response "www.example.com") 120 0 3)).
Proof.
  destruct (mid_poll_limit_one_extra_call repr_unused "www.example.com" mid_session
              limited_once fresh limit_response eq_refl eq_refl eq_refl eq_refl)
    as (Hrun & _).
  rewrite Hrun. reflexivity.
Defined.

Lemma submission_retries_until_resolved_witness :
  exists s',
    submit_phase repr_unused 1 "www.example.com" limited_once fresh =
      (Ret (inr (mkSession (ready_response "www.example.com")
                           (escalate 1 BACKOFF_START) (now fresh) O)), s') /\
    calls s' = calls fresh + (1 + 1) /\
    trace s' = (trace fresh ++ [EvClock (now fresh); EvNewScan "www.example.com"] ++
                retry_events "www.example.com" BACKOFF_START 1)%list /\
    remote_calls ([EvClock (now fresh); EvNewScan "www.example.com"] ++
                  retry_events "www.example.com" BACKOFF_START 1) = 1 + 1 /\
    backoff_waits (retry_events "www.example.com" BACKOFF_START 1) = schedule 1.
Proof.
  apply (submission_retries_until_resolved repr_unused 1 1 "www.example.com"
           limited_once fresh (ready_response "www.example.com")).
  - lia.
  - intros i Hi. destruct i; [reflexivity | lia].
  - reflexivity.
  - reflexivity.
Defined.

Lemma cached_ready_returns_at_once_witness :
  exists s',
    scan_until_ready repr_unused 0 "www.example.com" cached_report fresh =
      (Ret (ready_response "www.example.com"), s') /\
    calls s' = calls fresh /\
    trace s' = (trace fresh ++ [EvCache "www.example.com"])%list /\
    remote_calls [EvCache "www.example.com"] = 0.
Proof.
  apply (cached_ready_returns_at_once repr_unused 0 "www.example.com" cached_report
           fresh (ready_response "www.example.com")).
  - reflexivity.
  - reflexivity.
Defined.

Lemma ready_on_first_call_witness :
  exists s',
    scan_until_ready repr_unused 0 "www.example.com" ready_at_once fresh =
      (Ret (ready_response "www.example.com"), s') /\
    calls s' = 1 /\
    trace s' = [EvCache "www.example.com"; EvClock 0; EvNewScan "www.example.com"] /\
    sleeps [EvCache "www.example.com"; EvClock 0; EvNewScan "www.example.com"] = [].
Proof.
  apply (ready_on_first_call repr_unused 0 "www.example.com" ready_at_once fresh
           (ready_response "www.example.com")).
  - reflexivity.
  - reflexivity.
  - reflexivity.
  - reflexivity.
Defined.

Lemma host_gate_witness :
  exists s',
    process_host repr_unused (fun x => x) (fun _ => "N/A") 0 "www.example.com"
                 no_https fresh = (Ret tt, s') /\
    csv s' = (csv fresh ++ [no_https_row "www.example.com"])%list /\
    List.length (no_https_row "www.example.com") = List.length csv_header /\
    files s' = files fresh /\
    calls s' = calls fresh /\
    trace s' = (trace fresh ++ [EvConnect "www.example.com" 443 4])%list.
Proof.
  apply (proj2 (host_gate repr_unused (fun x => x) (fun _ => "N/A") 0
                  "www.example.com" no_https fresh)).
  reflexivity.
Defined.

(* ================================================================== *)
(** ** The further properties at sample inputs *)

Lemma is_limit_error_classifies_witness :
  is_limit_error repr_unused (ready_response "www.example.com") = Ok false.
Proof.
  apply (proj1 (is_limit_error_classifies repr_unused
                  (ready_response "www.example.com"))).
  reflexivity.
Defined.

Lemma is_limit_error_first_entry_decides_witness :
  is_limit_error repr_unused limit_then_junk = Ok true.
Proof.
  apply (is_limit_error_first_entry_decides repr_unused limit_then_junk []
           (JObj [("message", JStr "Concurrent assessment limit reached (10/10)")])
           [JInt 1]).
  - reflexivity.
  - constructor.
Defined.

Lemma extract_summary_host_first_witness :
  nth_error (extract_summary repr_unused (fun x => x) (fun _ => "N/A")
                             (ready_response "www.example.com")) 3 =
  Some (JStr "READY").
Proof.
  destruct (proj2 (extract_summary_host_first repr_unused (fun x => x)
                     (fun _ => "N/A") (ready_response "www.example.com"))
                  _ eq_refl) as (Hrow & Hstatus).
  rewrite Hrow. exact Hstatus.
Defined.

Lemma extract_summary_without_endpoints_witness :
  List.length (extract_summary repr_unused (fun x => x) (fun _ => "N/A")
                 (error_result "www.example.com" "poll failed" "connection timed out")) =
  15.
Proof.
  rewrite (extract_summary_without_endpoints repr_unused (fun x => x)
             (fun _ => "N/A")
             (error_result "www.example.com" "poll failed" "connection timed out")).
  - reflexivity.
  - reflexivity.
Defined.

Lemma returned_result_is_terminal_or_timed_out_witness :
  is_terminal (ready_response "www.example.com") = true \/
  timed_out (ready_response "www.example.com") = true.
Proof.
  apply (returned_result_is_terminal_or_timed_out repr_unused 0 "www.example.com"
           ready_at_once fresh (ready_response "www.example.com")
           (snd (scan_until_ready repr_unused 0 "www.example.com" ready_at_once fresh))).
  reflexivity.
Defined.

Lemma unreachable_hosts_only_get_placeholder_rows_witness :
  exists s',
    main_loop repr_unused (fun x => x) (fun _ => "N/A") 0
              ["a.example.com"; "b.example.com"] no_https fresh = (Ret tt, s') /\
    csv s' = (csv fresh ++ map no_https_row ["a.example.com"; "b.example.com"])%list /\
    trace s' = (trace fresh ++
                map (fun h => EvConnect h 443 4) ["a.example.com"; "b.example.com"])%list /\
    calls s' = calls fresh /\
    files s' = files fresh.
Proof.
  apply (unreachable_hosts_only_get_placeholder_rows repr_unused (fun x => x)
           (fun _ => "N/A") 0 ["a.example.com"; "b.example.com"] no_https fresh).
  intros h _. reflexivity.
Defined.

Lemma main_writes_one_row_per_host_witness :
  exists rows,
    csv (snd (main repr_unused (fun x => x) (fun _ => "N/A") 0
                   ["a.example.com"] no_https fresh)) =
      (csv fresh ++ map JStr csv_header :: rows)%list /\
    List.length rows = 1 /\
    Forall (fun row => List.length row = 15 \/ List.length row = 14) rows /\
    List.length (files (snd (main repr_unused (fun x => x) (fun _ => "N/A") 0
                                  ["a.example.com"] no_https fresh))) =
      List.length (files fresh) +
      List.length (filter (has_port_443 no_https) ["a.example.com"]).
Proof.
  apply (main_writes_one_row_per_host repr_unused (fun x => x) (fun _ => "N/A") 0
           ["a.example.com"] no_https fresh).
  reflexivity.
Defined.

Lemma exception_in_scan_aborts_the_loop_witness :
  fst (main_loop repr_unused (fun x => x) (fun _ => "N/A") 0
                 ["a.example.com"; "b.example.com"] malformed fresh) =
  Raise "'int' object has no attribute 'get'".
Proof.
  destruct (exception_in_scan_aborts_the_loop repr_unused (fun x => x)
              (fun _ => "N/A") 0 "a.example.com" ["b.example.com"] malformed fresh
              "'int' object has no attribute 'get'"
              (snd (scan_until_ready repr_unused 0 "a.example.com" malformed
                      (log EvClose (after_probe "a.example.com" malformed fresh))))
              eq_refl eq_refl) as (Hrun & _).
  rewrite Hrun. reflexivity.
Defined.

Lemma flatten_json_keeps_flat_records_witness :
  flatten_json (JObj (ready_response "www.example.com")) "" =
  ready_response "www.example.com".
Proof.
  apply (proj1 (flatten_json_keeps_flat_records (ready_response "www.example.com")
                  JNull "")).
  split.
  - repeat constructor.
    + intros [H | []]. discriminate.
    + intros [].
  - repeat constructor.
Defined.

Lemma flatten_json_keys_start_with_a_field_witness :
  exists k, In k (map fst nested_fields) /\ is_prefix k "endpoints.1.grade" = true.
Proof.
  apply (flatten_json_keys_start_with_a_field nested_fields "endpoints.1.grade").
  vm_compute. right. right. left. reflexivity.
Defined.

Lemma extract_summary_width_witness :
  List.length (extract_summary repr_unused (fun x => x) (fun _ => "N/A") v3_payload) = 14.
Proof.
  apply (proj2 (extract_summary_width repr_unused (fun x => x) (fun _ => "N/A")
                  v3_payload)).
  reflexivity.
Defined.

Lemma long_submission_leaves_no_time_to_poll_witness :
  exists s' tr,
    scan_until_ready repr_unused 5 "www.example.com" limited_five_times fresh =
      (Ret (in_progress_response "www.example.com" ++
            [("warnings", JList [JStr timeout_warning])])%list, s') /\
    calls s' = calls fresh + (5 + 1) /\
    trace s' = (trace fresh ++ tr)%list /\
    poll_waits tr = 0.
Proof.
  apply (long_submission_leaves_no_time_to_poll repr_unused 5 5 "www.example.com"
           limited_five_times fresh (in_progress_response "www.example.com")).
  - lia.
  - lia.
  - reflexivity.
  - intros i Hi. do 5 (destruct i as [| i]; [reflexivity |]). lia.
  - reflexivity.
  - reflexivity.
  - reflexivity.
  - reflexivity.
Defined.
